(** * County weather map: name normalisation, classification and lookup

    A shallow embedding of the pure functions behind the Texas county
    choropleth (mapUtils: [getColor], [findCountyByName],
    [generateFillColorExpression]; countyService: [normalizeCountyName];
    CountyDetailCard: [getHazardDisplayText], [formatHazards],
    [getVisibilityBadgeColor]) together with the properties the
    specification states about them.

    Conventions of the embedding.
    - A JavaScript string is a sequence of UTF-16 code units.  A [string]
      here is read as such a sequence whose code units are all below 256
      (one [ascii] per code unit, i.e. the Latin-1 range); the character
      classes below are the ECMAScript ones restricted to that range.
    - A JavaScript number is an IEEE double.  Every finite double is a
      rational, and comparison of doubles is comparison of these rationals,
      so a number is a rational or one of the three special values. *)

From Stdlib Require Import Ascii QArith Lqa.
From stdpp Require Import base strings list.

(** ** Strings *)

Module JsString.

Definition code (c : ascii) : N := N_of_ascii c.

(** WhiteSpace and LineTerminator code units below 256: TAB, LF, VT, FF,
    CR, SPACE and NO-BREAK SPACE.  Both the regular expression class
    [\s] and [String.prototype.trim] use this set. *)
Definition isWhiteSpace (c : ascii) : bool :=
  let n := code c in
  ((9 <=? n) && (n <=? 13) || (n =? 32) || (n =? 160))%N.

(** [Canonicalize] of a case-insensitive, non-unicode regular expression:
    the upper-case mapping of the code unit, kept only when it is a single
    code unit and does not take a non-ASCII unit into ASCII.  The result
    may leave the Latin-1 range (y with diaeresis, micro sign). *)
Definition canonicalize (c : ascii) : N :=
  let n := code c in
  (if (97 <=? n) && (n <=? 122) then n - 32
   else if (224 <=? n) && (n <=? 254) && negb (n =? 247) then n - 32
   else if n =? 255 then 376
   else if n =? 181 then 924
   else n)%N.

(** [String.prototype.toLowerCase] on code units below 256. *)
Definition lowerChar (c : ascii) : ascii :=
  let n := code c in
  (if (65 <=? n) && (n <=? 90) then ascii_of_N (n + 32)
   else if (192 <=? n) && (n <=? 222) && negb (n =? 215)
        then ascii_of_N (n + 32)
   else c)%N.

Fixpoint toLowerCase (s : string) : string :=
  match s with
  | EmptyString => EmptyString
  | String c s' => String (lowerChar c) (toLowerCase s')
  end.

Fixpoint trimStart (s : string) : string :=
  match s with
  | EmptyString => EmptyString
  | String c s' => if isWhiteSpace c then trimStart s' else s
  end.

Fixpoint trimEnd (s : string) : string :=
  match s with
  | EmptyString => EmptyString
  | String c s' =>
      match trimEnd s' with
      | EmptyString => if isWhiteSpace c then EmptyString
                       else String c EmptyString
      | r => String c r
      end
  end.

(** [String.prototype.trim]: white space removed from both ends. *)
Definition trim (s : string) : string := trimEnd (trimStart s).

(** A string that does not begin with white space. *)
Definition cleanHead (s : string) : bool :=
  match s with
  | EmptyString => true
  | String c _ => negb (isWhiteSpace c)
  end.

(** The empty string is the only falsy string. *)
Definition truthy (s : string) : bool :=
  match s with EmptyString => false | _ => true end.

(** [s.startsWith(prefix)]. *)
Fixpoint startsWith (s prefix : string) : bool :=
  match prefix, s with
  | EmptyString, _ => true
  | String p prefix', String c s' => Ascii.eqb p c && startsWith s' prefix'
  | String _ _, EmptyString => false
  end.

(** [s.slice(n)] for [n] within the string. *)
Fixpoint dropChars (n : nat) (s : string) : string :=
  match n, s with
  | O, _ => s
  | S n', String _ s' => dropChars n' s'
  | S _, EmptyString => EmptyString
  end.

(** [s.replace(pattern, '')] with a string pattern: the first occurrence
    of the pattern, looked for from the left, is removed; without an
    occurrence [s] is returned. *)
Fixpoint removeFirst (pattern s : string) : string :=
  if startsWith s pattern then dropChars (String.length pattern) s
  else match s with
       | EmptyString => EmptyString
       | String c s' => String c (removeFirst pattern s')
       end.

(** [s.includes(pattern)]. *)
Fixpoint occursIn (pattern s : string) : bool :=
  startsWith s pattern ||
  match s with
  | EmptyString => false
  | String _ s' => occursIn pattern s'
  end.

(** A string made of white space only (the empty string included). *)
Fixpoint allWhiteSpace (s : string) : bool :=
  match s with
  | EmptyString => true
  | String c s' => isWhiteSpace c && allWhiteSpace s'
  end.

End JsString.

(** ** countyService: the county-name normalizer *)

Module CountyService.
Import JsString.

(** The literal part of [/\s+County$/i]: the remaining input must be
    exactly the pattern, compared through [canonicalize]; the end of the
    pattern is the assertion [$] (no multiline flag: end of input). *)
Fixpoint matchLiteralEnd (pattern s : string) : bool :=
  match pattern, s with
  | EmptyString, EmptyString => true
  | String p pattern', String c s' =>
      (canonicalize p =? canonicalize c)%N && matchLiteralEnd pattern' s'
  | _, _ => false
  end.

(** [/\s+County$/i] matched with its start at the head of [s]: one white
    space, then (greedily, with backtracking) more white space or the
    literal. *)
Fixpoint matchCountySuffixAt (s : string) : bool :=
  match s with
  | EmptyString => false
  | String c s' =>
      isWhiteSpace c && (matchCountySuffixAt s' || matchLiteralEnd "County" s')
  end.

(** [/\s+County$/i.test(s)]: the pattern matches at some start index. *)
Fixpoint countySuffixTest (s : string) : bool :=
  matchCountySuffixAt s ||
  match s with
  | EmptyString => false
  | String _ s' => countySuffixTest s'
  end.

(** [s.replace(/\s+County$/i, '')]: the start indices are tried from the
    left; the first match (which runs to the end of the input) is
    replaced by the empty string; without a match [s] is returned. *)
Fixpoint replaceCountySuffix (s : string) : string :=
  if matchCountySuffixAt s then EmptyString
  else match s with
       | EmptyString => EmptyString
       | String c s' => String c (replaceCountySuffix s')
       end.

(** [normalizeCountyName]: remove "County" suffix if present and trim
    whitespace. *)
Definition normalizeCountyName (name : string) : string :=
  trim (replaceCountySuffix name).

End CountyService.

(** ** Numbers *)

Module JsNumber.

Inductive number :=
| Finite (q : Q)
| PosInfinity
| NegInfinity
| NaN.

Definition Qlt_bool (x y : Q) : bool := negb (Qle_bool y x).

(** [a < b]: false as soon as one side is NaN. *)
Definition ltb (a b : number) : bool :=
  match a, b with
  | NaN, _ | _, NaN => false
  | Finite x, Finite y => Qlt_bool x y
  | NegInfinity, (Finite _ | PosInfinity) => true
  | Finite _, PosInfinity => true
  | _, _ => false
  end.

(** [a === b] on numbers. *)
Definition eqb (a b : number) : bool :=
  match a, b with
  | Finite x, Finite y => Qeq_bool x y
  | PosInfinity, PosInfinity | NegInfinity, NegInfinity => true
  | _, _ => false
  end.

(** [a <= b]. *)
Definition leb (a b : number) : bool := ltb a b || eqb a b.

(** Zero (of either sign) and NaN are the falsy numbers. *)
Definition truthy (n : number) : bool :=
  match n with
  | Finite q => negb (Qeq_bool q 0)
  | NaN => false
  | _ => true
  end.

End JsNumber.

(** ** Values read from the published JSON *)

Module JsValue.
Import JsString JsNumber.

(** What [JSON.parse] can return.  An object lists its own properties in
    the order in which JavaScript enumerates them, each key once. *)
#[warnings="-register-all"] Inductive jsval :=
| JNull
| JBool (b : bool)
| JNumber (n : number)
| JString (s : string)
| JArray (items : list jsval)
| JObject (properties : list (string * jsval)).

Definition typeof (v : jsval) : string :=
  match v with
  | JBool _ => "boolean"
  | JNumber _ => "number"
  | JString _ => "string"
  | JNull | JArray _ | JObject _ => "object"
  end.

Definition truthy (v : jsval) : bool :=
  match v with
  | JNull => false
  | JBool b => b
  | JNumber n => JsNumber.truthy n
  | JString s => JsString.truthy s
  | JArray _ | JObject _ => true
  end.

Fixpoint lookupProperty (properties : list (string * jsval)) (key : string)
  : option jsval :=
  match properties with
  | [] => None
  | (k, v) :: rest => if String.eqb k key then Some v
                      else lookupProperty rest key
  end.

(** [v.key] for one of the keys read by the detail card; [None] is
    [undefined].  Arrays and primitives carry none of these keys. *)
Definition getProperty (v : jsval) (key : string) : option jsval :=
  match v with
  | JObject properties => lookupProperty properties key
  | _ => None
  end.

(** Outcome of a call that may throw. *)
Inductive completion (A : Type) :=
| Normal (a : A)
| Throw.
Arguments Normal {A} a.
Arguments Throw {A}.

Definition doubleQuote : string := String "034" EmptyString.

Definition hexDigit (n : N) : ascii :=
  (if n <? 10 then ascii_of_N (48 + n) else ascii_of_N (87 + n))%N.

(** One code unit of [QuoteJSONString]. *)
Definition quoteChar (c : ascii) : string :=
  let n := code c in
  (if n =? 8 then "\b"
   else if n =? 9 then "\t"
   else if n =? 10 then "\n"
   else if n =? 12 then "\f"
   else if n =? 13 then "\r"
   else if n =? 34 then "\" +:+ doubleQuote
   else if n =? 92 then "\\"
   else if n <? 32
        then "\u00" +:+ String (hexDigit (n / 16)) (String (hexDigit (n mod 16)) "")
   else String c "")%N.

Fixpoint quoteChars (s : string) : string :=
  match s with
  | EmptyString => EmptyString
  | String c s' => quoteChar c +:+ quoteChars s'
  end.

Definition quoteJSONString (s : string) : string :=
  doubleQuote +:+ quoteChars s +:+ doubleQuote.

Section Printing.
(** [Number::toString] on a finite number (the shortest decimal that
    reads back as the same double) is not modelled; nothing below
    depends on the digits it prints. *)
Variable NumberToString : Q -> string.

Definition numberToString (n : number) : string :=
  match n with
  | Finite q => NumberToString q
  | PosInfinity => "Infinity"
  | NegInfinity => "-Infinity"
  | NaN => "NaN"
  end.

(** [SerializeJSONProperty] without indentation. *)
Fixpoint serializeJSON (v : jsval) : string :=
  match v with
  | JNull => "null"
  | JBool b => if b then "true" else "false"
  | JNumber (Finite q) => NumberToString q
  | JNumber _ => "null"
  | JString s => quoteJSONString s
  | JArray items =>
      "[" +:+ String.concat "," (map serializeJSON items) +:+ "]"
  | JObject properties =>
      "{" +:+ String.concat ","
                (map (fun p => quoteJSONString (fst p) +:+ ":" +:+
                               serializeJSON (snd p)) properties)
          +:+ "}"
  end.

(** [JSON.stringify(v)] throws on cyclic structures and on BigInt
    only; a [jsval] is neither. *)
Definition JSON_stringify (v : jsval) : completion string :=
  Normal (serializeJSON v).

(** [ToString]; inside an array, null elements print as nothing. *)
Fixpoint toString (v : jsval) : string :=
  match v with
  | JNull => "null"
  | JBool b => if b then "true" else "false"
  | JNumber n => numberToString n
  | JString s => s
  | JArray items =>
      String.concat ","
        (map (fun x => match x with
                       | JNull => EmptyString
                       | _ => toString x
                       end) items)
  | JObject _ => "[object Object]"
  end.

(** [Array.prototype.join(separator)]. *)
Definition join (separator : string) (items : list jsval) : string :=
  String.concat separator
    (map (fun x => match x with
                   | JNull => EmptyString
                   | _ => toString x
                   end) items).

End Printing.

End JsValue.

(** ** types/county: the county record *)

Module County.
Import JsNumber JsValue.

Record Reading (V S : Type) := {
  value : V;
  unit : S;
  validTime : S
}.
Arguments value {V S} _.
Arguments unit {V S} _.
Arguments validTime {V S} _.

Record Coordinates := {
  latitude : number;
  longitude : number
}.

(** [severity] and [description] may be missing from an alert. *)
Record Alert := {
  event : string;
  headline : string;
  severity : option string;
  description : option string
}.

(** [hazards] is declared [string[]]; the detail card accepts entries
    of any shape, so an entry is a [jsval].  [visibility] has nullable
    components and [alerts] is optional. *)
Record Weather := {
  temperature : Reading number string;
  relativeHumidity : Reading number string;
  hazards : list jsval;
  probabilityOfPrecipitation : Reading number string;
  visibility : Reading (option number) (option string);
  alerts : option (list Alert)
}.

Record CountyData := {
  countyName : string;
  coordinates : Coordinates;
  data : Weather
}.

End County.

(** ** map/mapUtils: colours, lookup and the fill-colour expression *)

Module MapUtils.
Import JsString JsNumber JsValue County CountyService.

(** [o === s] where [o] may be [undefined]. *)
Definition optionIs (o : option string) (s : string) : bool :=
  match o with
  | Some x => String.eqb x s
  | None => false
  end.

(** [items.includes(x)] on an array of strings. *)
Definition includes (items : list string) (x : string) : bool :=
  existsb (String.eqb x) items.

(** Body of the [forEach] over the alerts: the new value of the local
    [highestSeverity] after looking at one alert. *)
Definition raiseSeverity (highestSeverity : string) (alert : Alert) : string :=
  let severity := option_map toLowerCase (severity alert) in
  if optionIs severity "extreme" then "extreme"
  else if optionIs severity "severe"
          && negb (String.eqb highestSeverity "extreme") then "severe"
  else if optionIs severity "moderate"
          && negb (includes ["extreme"; "severe"] highestSeverity) then "moderate"
  else highestSeverity.

(** [highestSeverity] when the loop is over; it starts as 'minor'. *)
Definition highestSeverity (alerts : list Alert) : string :=
  fold_left raiseSeverity alerts "minor".

(** The closing [switch] over [highestSeverity]. *)
Definition severityColor (highestSeverity : string) : string :=
  if String.eqb highestSeverity "extreme" then "#FF0000"
  else if String.eqb highestSeverity "severe" then "#FF0000"
  else if String.eqb highestSeverity "moderate" then "#FFA500"
  else "#FFFF00".

Definition temperatureColor (temp : number) : string :=
  if ltb temp (Finite 0) then "#9CA3AF"
  else if ltb temp (Finite 10) then "#F7FCFD"
  else if ltb temp (Finite 20) then "#FFD166"
  else if ltb temp (Finite 30) then "#FF9966"
  else "#FF5F5F".

Definition precipitationColor (precipProbability : number) : string :=
  if eqb precipProbability (Finite 0) then "#FFFFFF"
  else if leb precipProbability (Finite 20) then "#E6F0FF"
  else if leb precipProbability (Finite 40) then "#B3D9FF"
  else if leb precipProbability (Finite 60) then "#80C2FF"
  else if leb precipProbability (Finite 80) then "#4DA6FF"
  else "#1A8CFF".

(** [!visibility] holds for null, for zero and for NaN. *)
Definition visibilityColor (visibility : option number) : string :=
  match visibility with
  | None => "#F7FCFD"
  | Some v =>
      if negb (JsNumber.truthy v) then "#F7FCFD"
      else if ltb v (Finite 1000) then "#FF5F5F"
      else if ltb v (Finite 5000) then "#FF9966"
      else if ltb v (Finite 10000) then "#FFD166"
      else "#F7FCFD"
  end.

Definition alertsColor (alerts : option (list Alert)) : string :=
  match alerts with
  | None | Some [] => "#F7FCFD"
  | Some alerts => severityColor (highestSeverity alerts)
  end.

(** [getColor]: colour of a county for the selected data type.  The data
    type is a string at run time; any other string than the five known
    ones reaches the default. *)
Definition getColor (county : CountyData) (dataType : string) : string :=
  if String.eqb dataType "temperature" then
    temperatureColor (value (temperature (data county)))
  else if String.eqb dataType "precipitation" then
    precipitationColor (value (probabilityOfPrecipitation (data county)))
  else if String.eqb dataType "hazards" then
    if (0 <? length (hazards (data county)))%nat then "#FF5F5F" else "#F7FCFD"
  else if String.eqb dataType "visibility" then
    visibilityColor (value (visibility (data county)))
  else if String.eqb dataType "alerts" then
    alertsColor (alerts (data county))
  else "#9CA3AF".

(** [findCountyByName]: the first county whose normalized name is the
    normalized query ([Array.prototype.find]). *)
Definition findCountyByName (counties : list CountyData) (name : string)
  : option CountyData :=
  let normalizedName := normalizeCountyName name in
  find (fun county =>
          String.eqb (normalizeCountyName (countyName county)) normalizedName)
       counties.

(** One turn of the [forEach] of [generateFillColorExpression]: two
    elements pushed at the end of the array. *)
Definition pushCounty (dataType : string)
  (matchExpression : list jsval) (county : CountyData) : list jsval :=
  matchExpression ++
  [JString (countyName county +:+ " County"); JString (getColor county dataType)].

(** [generateFillColorExpression]: the MapLibre match expression as a flat
    array. *)
Definition generateFillColorExpression
  (counties : list CountyData) (dataType : string) : list jsval :=
  let matchExpression := [JString "match"; JArray [JString "get"; JString "COUNTY"]] in
  let matchExpression := fold_left (pushCounty dataType) counties matchExpression in
  matchExpression ++ [JString "#CCCCCC"].

(** Why MapLibre's parser refuses a match expression (style
    specification, not code of the site). *)
Inductive matchError :=
| TooFewArguments   (* Expected at least 4 arguments *)
| EvenArguments     (* Expected an even number of arguments *)
| BadLabel          (* Branch labels must be numbers or strings *)
| DuplicateLabel.   (* Branch labels must be unique *)

(** The branches of a match expression once parsed; [ParseNotModelled]
    stands for the forms the site never builds (numeric labels, arrays of
    labels, outputs that are not string literals). *)
Inductive parsedMatch :=
| Parsed (cases : list (string * jsval)) (otherwise : jsval)
| ParseRefused (error : matchError)
| ParseNotModelled.

(** The parser keeps the labels in a plain JavaScript object, so the
    names every object inherits count as labels already seen. *)
Definition objectPrototypeNames : list string :=
  ["constructor"; "__defineGetter__"; "__defineSetter__"; "hasOwnProperty";
   "__lookupGetter__"; "__lookupSetter__"; "isPrototypeOf";
   "propertyIsEnumerable"; "toString"; "valueOf"; "__proto__";
   "toLocaleString"].

(** The loop of MapLibre's parser over the label/output pairs, then the
    fallback: a label must be a string not seen before. *)
Fixpoint parseBranches (seen : list string) (branches : list jsval)
  : parsedMatch :=
  match branches with
  | [] => ParseNotModelled
  | [otherwise] =>
      match otherwise with
      | JString _ => Parsed [] otherwise
      | _ => ParseNotModelled
      end
  | label :: output :: rest =>
      match label with
      | JString l =>
          if includes seen l then ParseRefused DuplicateLabel
          else match output with
               | JString _ =>
                   match parseBranches (l :: seen) rest with
                   | Parsed cases otherwise =>
                       Parsed ((l, output) :: cases) otherwise
                   | refused => refused
                   end
               | _ => ParseNotModelled
               end
      | JNumber _ | JArray _ => ParseNotModelled
      | JNull | JBool _ | JObject _ => ParseRefused BadLabel
      end
  end.

(** The output of the case whose label is the input. *)
Fixpoint lookupCase (cases : list (string * jsval)) (input : string)
  : option jsval :=
  match cases with
  | [] => None
  | (label, output) :: rest =>
      if String.eqb label input then Some output else lookupCase rest input
  end.

(** What MapLibre makes of a fill-colour expression for a polygon. *)
Inductive evaluation :=
| Evaluated (output : jsval)
| Refused (error : matchError)
| NotModelled.

(** The fill colour of a polygon whose [COUNTY] property is [label], as
    MapLibre parses and evaluates a match expression: at least one
    label/output pair and an odd number of elements are required, then
    the branches are parsed; the output of the case equal to the input is
    the result, and the fallback when there is none. *)
Definition evalFillColor (expression : list jsval) (label : string)
  : evaluation :=
  match expression with
  | JString "match" :: JArray [JString "get"; JString "COUNTY"] :: branches =>
      if (length expression <? 5)%nat then Refused TooFewArguments
      else if Nat.even (length expression) then Refused EvenArguments
      else match parseBranches objectPrototypeNames branches with
           | Parsed cases otherwise =>
               Evaluated match lookupCase cases label with
                         | Some output => output
                         | None => otherwise
                         end
           | ParseRefused error => Refused error
           | ParseNotModelled => NotModelled
           end
  | _ => NotModelled
  end.

End MapUtils.

(** ** map/CountyDetailCard: texts and badges of the detail card *)

Module CountyDetailCard.
Import JsString JsNumber JsValue County.

(** [hazard.key] when it is truthy. *)
Definition truthyProperty (hazard : jsval) (key : string) : option jsval :=
  match getProperty hazard key with
  | Some v => if truthy v then Some v else None
  | None => None
  end.

Section Hazards.
Variable NumberToString : Q -> string.

(** [getHazardDisplayText]: a displayable value for one hazard entry.  The
    result is a string unless a descriptive field holds another truthy
    value, which is returned as it is. *)
Definition getHazardDisplayText (hazard : jsval) : jsval :=
  if String.eqb (typeof hazard) "string" then hazard
  else if truthy hazard && String.eqb (typeof hazard) "object" then
    match truthyProperty hazard "event" with
    | Some v => v
    | None =>
    match truthyProperty hazard "type" with
    | Some v => v
    | None =>
    match truthyProperty hazard "name" with
    | Some v => v
    | None =>
    match truthyProperty hazard "description" with
    | Some v => v
    | None =>
    match truthyProperty hazard "phenomenon" with
    | Some v => v
    | None =>
    match JSON_stringify NumberToString hazard with
    | Normal text => JString text
    | Throw => JString "Unknown hazard"
    end end end end end end
  else JString "Unknown hazard".

(** [formatHazards]: the callback of its [map] has the body of
    [getHazardDisplayText]. *)
Definition formatHazards (hazards : option (list jsval)) : string :=
  match hazards with
  | None | Some [] => "None"
  | Some hazards => join NumberToString ", " (map getHazardDisplayText hazards)
  end.

End Hazards.

Definition getSeverityColor (severity : option string) : string :=
  let s := option_map toLowerCase severity in
  if MapUtils.optionIs s "extreme" then "bg-red-700 text-white"
  else if MapUtils.optionIs s "severe" then "bg-red-500 text-white"
  else if MapUtils.optionIs s "moderate" then "bg-orange-500"
  else if MapUtils.optionIs s "minor" then "bg-yellow-400"
  else "bg-blue-500 text-white".

(** [getVisibilityBadgeColor]: the badge of the visibility tab. *)
Definition getVisibilityBadgeColor (meters : option number) : string :=
  match meters with
  | None => "bg-gray-400 text-white"
  | Some m =>
      if ltb m (Finite 1000) then "bg-red-500 text-white"
      else if ltb m (Finite 5000) then "bg-orange-500"
      else if ltb m (Finite 10000) then "bg-yellow-400"
      else "bg-blue-500 text-white"
  end.

Section Labels.
(** The text of [(meters / 1609.34).toFixed(1)]; the division and the
    rounding to one decimal are floating-point operations and are not
    modelled. *)
Variable milesToFixed : number -> string.

(** [getVisibilityLabel]: the text of the visibility badge. *)
Definition getVisibilityLabel (meters : option number) : string :=
  match meters with
  | None => "Not available"
  | Some m =>
      let miles := milesToFixed m in
      if ltb m (Finite 1000) then "Very poor (" +:+ miles +:+ " mi)"
      else if ltb m (Finite 5000) then "Poor (" +:+ miles +:+ " mi)"
      else if ltb m (Finite 10000) then "Moderate (" +:+ miles +:+ " mi)"
      else "Good (" +:+ miles +:+ " mi)"
  end.

End Labels.

(** [getPrecipitationBadgeColor]: the badge of the precipitation tab. *)
Definition getPrecipitationBadgeColor (probability : number) : string :=
  if eqb probability (Finite 0) then "bg-white text-black border border-gray-300"
  else if leb probability (Finite 20) then "bg-blue-100 text-blue-800"
  else if leb probability (Finite 40) then "bg-blue-200 text-blue-800"
  else if leb probability (Finite 60) then "bg-blue-300 text-blue-800"
  else if leb probability (Finite 80) then "bg-blue-400 text-white"
  else "bg-blue-500 text-white".

(** [hasAlerts]: whether the card shows its alerts section,
    [county.data?.alerts && county.data.alerts.length > 0] read as a
    condition. *)
Definition hasAlerts (county : CountyData) : bool :=
  match alerts (data county) with
  | None => false
  | Some list => (0 <? length list)%nat
  end.

End CountyDetailCard.

(** ** utils/paths: where the published assets are *)

Module Paths.
Import JsString.

(** [getBasePath]; [dev] is [import.meta.env.DEV]. *)
Definition getBasePath (dev : bool) : string :=
  if dev then "/texas-county-choropleth-view"
  else "/texas-county-choropleth-view".

(** [getAssetPath]; the console message is left out. *)
Definition getAssetPath (dev : bool) (assetPath : string) : string :=
  if startsWith assetPath "/" then getBasePath dev +:+ assetPath
  else getBasePath dev +:+ "/" +:+ assetPath.

End Paths.

(** ** map/MapContainer: from a polygon to its record *)

Module MapContainer.
Import JsString County MapUtils.

(** The lookup of the click and mousemove handlers: the [COUNTY] property
    of the polygon with its first " County" removed, then
    [findCountyByName]. *)
Definition countyOfFeature (counties : list CountyData) (COUNTY : string)
  : option CountyData :=
  let countyName := removeFirst " County" COUNTY in
  findCountyByName counties countyName.

End MapContainer.

(** ** Chatbot: the message list *)

Module Chatbot.
Import JsString.

Record Message := {
  id : Z;
  text : string;
  isUser : bool
}.

(** The state cells of the component. *)
Record State := {
  messages : list Message;
  inputValue : string;
  isCollapsed : bool;
  isLoading : bool;
  isConnected : option bool;
  isDataLoaded : bool;
  isDataLoading : bool
}.

(** What the request to /api/chat comes to: a response body with its
    [response] text, or a failure (the fetch rejects, the status is not
    ok, or the body is not JSON), which is what the [catch] handles. *)
Inductive Outcome :=
| Replied (response : string)
| Failed.

(** [setMessages(prev => [...prev, message])]. *)
Definition addMessage (message : Message) (st : State) : State :=
  {| messages := messages st ++ [message]; inputValue := inputValue st;
     isCollapsed := isCollapsed st; isLoading := isLoading st;
     isConnected := isConnected st; isDataLoaded := isDataLoaded st;
     isDataLoading := isDataLoading st |}.

Definition setInputValue (value : string) (st : State) : State :=
  {| messages := messages st; inputValue := value;
     isCollapsed := isCollapsed st; isLoading := isLoading st;
     isConnected := isConnected st; isDataLoaded := isDataLoaded st;
     isDataLoading := isDataLoading st |}.

Definition setIsLoading (value : bool) (st : State) : State :=
  {| messages := messages st; inputValue := inputValue st;
     isCollapsed := isCollapsed st; isLoading := value;
     isConnected := isConnected st; isDataLoaded := isDataLoaded st;
     isDataLoading := isDataLoading st |}.

Definition setIsConnected (value : bool) (st : State) : State :=
  {| messages := messages st; inputValue := inputValue st;
     isCollapsed := isCollapsed st; isLoading := isLoading st;
     isConnected := Some value; isDataLoaded := isDataLoaded st;
     isDataLoading := isDataLoading st |}.

Definition apology : string :=
  "Sorry, I'm having trouble connecting to the server. Please try again later.".

(** One run of [handleSubmit] from the state the form was rendered with,
    no other event coming in between its updates.  [now] and [later] are
    the two readings of [Date.now()]; the request is sent only past the
    guard on the trimmed input. *)
Definition handleSubmit (now later : Z) (outcome : Outcome) (st : State)
  : State :=
  if negb (truthy (trim (inputValue st))) then st
  else
    let newMessage :=
      {| id := now; text := inputValue st; isUser := true |} in
    let st := setIsLoading true (setInputValue "" (addMessage newMessage st)) in
    let st :=
      match outcome with
      | Replied response =>
          addMessage {| id := later + 1; text := response; isUser := false |} st
      | Failed =>
          setIsConnected false
            (addMessage {| id := later + 1; text := apology; isUser := false |} st)
      end in
    setIsLoading false st.

End Chatbot.

(** ** The specification's vocabulary *)

Module Spec.
Import JsString JsNumber JsValue County MapUtils CountyDetailCard.

(** Severity rank of the specification, extreme > severe > moderate >
    minor, read case-insensitively; an unknown or absent severity ranks
    as minor. *)
Definition severityRank (severity : option string) : nat :=
  let s := option_map toLowerCase severity in
  if optionIs s "extreme" then 3
  else if optionIs s "severe" then 2
  else if optionIs s "moderate" then 1
  else 0.

(** The worst rank present among the alerts of a county. *)
Definition worstRank (alerts : list Alert) : nat :=
  list_max (map (fun alert => severityRank (severity alert)) alerts).

(** The severity that has a given rank. *)
Definition rankName (rank : nat) : string :=
  match rank with
  | 0 => "minor"
  | 1 => "moderate"
  | 2 => "severe"
  | _ => "extreme"
  end.

(** The descriptive fields of a hazard object, in the order of
    preference of the specification. *)
Definition descriptiveFields : list string :=
  ["event"; "type"; "name"; "description"; "phenomenon"].

(** The first descriptive field, in that order, that holds a truthy
    value. *)
Fixpoint firstDescriptive (hazard : jsval) (fields : list string)
  : option jsval :=
  match fields with
  | [] => None
  | key :: rest =>
      match truthyProperty hazard key with
      | Some v => Some v
      | None => firstDescriptive hazard rest
      end
  end.

(** The key/colour pairs the fill-colour expression should hold, one per
    record, in the order of the records. *)
Definition expectedBranches (counties : list CountyData) (dataType : string)
  : list jsval :=
  flat_map (fun county =>
              [JString (countyName county +:+ " County");
               JString (getColor county dataType)]) counties.

End Spec.

(** ** Sample records

    From the hard-coded data of [loadCountyData]; [withVisibility] and
    [withAlerts] vary one field of a record. *)

Module Samples.
Import JsNumber JsValue County.

Definition percent (q : Q) (validTime : string) : Reading number string :=
  {| value := Finite q; unit := "wmoUnit:percent"; validTime := validTime |}.

Definition foard : CountyData :=
  {| countyName := "Foard";
     coordinates := {| latitude := Finite 33.97408519;
                       longitude := Finite (-99.77871109) |};
     data := {|
       temperature := {| value := Finite 2.7777777777777777; unit := "wmoUnit:degC";
                         validTime := "2025-04-07T10:00:00+00:00/PT1H" |};
       relativeHumidity := percent 78 "2025-04-07T10:00:00+00:00/PT1H";
       hazards := [];
       probabilityOfPrecipitation := percent 0 "2025-04-07T10:00:00+00:00/P4DT14H";
       visibility := {| value := None; unit := None; validTime := None |};
       alerts := None |} |}.

Definition blanco : CountyData :=
  {| countyName := "Blanco";
     coordinates := {| latitude := Finite 30.26636128;
                       longitude := Finite (-98.39974086) |};
     data := {|
       temperature := {| value := Finite 2.7777777777777777; unit := "wmoUnit:degC";
                         validTime := "2025-04-07T11:00:00+00:00/PT1H" |};
       relativeHumidity := percent 84 "2025-04-07T11:00:00+00:00/PT1H";
       hazards := [];
       probabilityOfPrecipitation := percent 0 "2025-04-07T11:00:00+00:00/P7DT13H";
       visibility := {| value := Some (Finite 16093.44);
                        unit := Some "wmoUnit:m";
                        validTime := Some "2025-04-07T11:00:00+00:00/P2DT8H" |};
       alerts := None |} |}.

Definition travis : CountyData :=
  {| countyName := "Travis";
     coordinates := {| latitude := Finite 30.33192778;
                       longitude := Finite (-97.77100281) |};
     data := {|
       temperature := {| value := Finite 18.3; unit := "wmoUnit:degC";
                         validTime := "2025-04-07T11:00:00+00:00/PT1H" |};
       relativeHumidity := percent 65 "2025-04-07T11:00:00+00:00/PT1H";
       hazards := [JString "Thunderstorm"];
       probabilityOfPrecipitation := percent 60 "2025-04-07T11:00:00+00:00/P7DT7H";
       visibility := {| value := Some (Finite 5000);
                        unit := Some "wmoUnit:m";
                        validTime := Some "2025-04-07T11:00:00+00:00/P2DT8H" |};
       alerts := None |} |}.

Definition withData (county : CountyData) (weather : Weather) : CountyData :=
  {| countyName := countyName county; coordinates := coordinates county;
     data := weather |}.

Definition withTemperature (county : CountyData) (temp : number) : CountyData :=
  let d := data county in
  withData county
    {| temperature := {| value := temp; unit := unit (temperature d);
                         validTime := validTime (temperature d) |};
       relativeHumidity := relativeHumidity d; hazards := hazards d;
       probabilityOfPrecipitation := probabilityOfPrecipitation d;
       visibility := visibility d; alerts := alerts d |}.

Definition withVisibility (county : CountyData) (meters : option number)
  : CountyData :=
  let d := data county in
  withData county
    {| temperature := temperature d; relativeHumidity := relativeHumidity d;
       hazards := hazards d;
       probabilityOfPrecipitation := probabilityOfPrecipitation d;
       visibility := {| value := meters; unit := unit (visibility d);
                        validTime := validTime (visibility d) |};
       alerts := alerts d |}.

Definition withAlerts (county : CountyData) (list : option (list Alert))
  : CountyData :=
  let d := data county in
  withData county
    {| temperature := temperature d; relativeHumidity := relativeHumidity d;
       hazards := hazards d;
       probabilityOfPrecipitation := probabilityOfPrecipitation d;
       visibility := visibility d; alerts := list |}.

Definition alertOf (severity : option string) : Alert :=
  {| event := "Flood Warning"; headline := "Flood Warning issued";
     severity := severity; description := None |}.

End Samples.

Import JsString JsNumber JsValue County CountyService MapUtils CountyDetailCard.
Import Spec Samples.

(** * Properties *)

(** ** The normalizer *)

Section Trim.

Lemma trimStart_cleanHead s : cleanHead (trimStart s) = true.
Proof.
  induction s as [|c s IH]; simpl; [reflexivity|].
  destruct (isWhiteSpace c) eqn:E; simpl; [exact IH|].
  now rewrite E.
Qed.

Lemma trimStart_fixed s : cleanHead s = true -> trimStart s = s.
Proof.
  destruct s as [|c s]; simpl; [reflexivity|].
  now destruct (isWhiteSpace c).
Qed.

Lemma trimEnd_cleanHead s : cleanHead s = true -> cleanHead (trimEnd s) = true.
Proof.
  destruct s as [|c s]; simpl; [reflexivity|].
  intros H. destruct (trimEnd s); simpl.
  - destruct (isWhiteSpace c) eqn:W; [discriminate|]. simpl. now rewrite W.
  - exact H.
Qed.

Lemma trimEnd_idempotent s : trimEnd (trimEnd s) = trimEnd s.
Proof.
  induction s as [|c s IH]; simpl; [reflexivity|].
  destruct (trimEnd s) as [|d r] eqn:E.
  - destruct (isWhiteSpace c) eqn:W; simpl; [reflexivity|].
    now rewrite W.
  - change (trimEnd (String c (String d r))) with
      (match trimEnd (String d r) with
       | EmptyString => if isWhiteSpace c then EmptyString else String c EmptyString
       | r' => String c r'
       end).
    rewrite IH. reflexivity.
Qed.

Lemma trim_idempotent s : trim (trim s) = trim s.
Proof.
  unfold trim.
  rewrite (trimStart_fixed (trimEnd (trimStart s))).
  - apply trimEnd_idempotent.
  - apply trimEnd_cleanHead, trimStart_cleanHead.
Qed.

Lemma trimStart_length s : (String.length (trimStart s) <= String.length s)%nat.
Proof.
  induction s as [|c s IH]; simpl; [lia|].
  destruct (isWhiteSpace c); simpl; lia.
Qed.

Lemma trimEnd_length s : (String.length (trimEnd s) <= String.length s)%nat.
Proof.
  induction s as [|c s IH]; simpl; [lia|].
  destruct (trimEnd s); [destruct (isWhiteSpace c)|]; simpl in *; lia.
Qed.

Lemma trim_length s : (String.length (trim s) <= String.length s)%nat.
Proof.
  unfold trim. pose proof (trimEnd_length (trimStart s)).
  pose proof (trimStart_length s). lia.
Qed.

End Trim.

Section Replace.

Lemma replace_without_match s :
  countySuffixTest s = false -> replaceCountySuffix s = s.
Proof.
  induction s as [|c s IH]; [reflexivity|].
  cbn [countySuffixTest replaceCountySuffix].
  intros H. apply orb_false_iff in H as [Hat Hrest].
  rewrite Hat. f_equal. auto.
Qed.

Lemma replace_with_match s :
  countySuffixTest s = true ->
  (String.length (replaceCountySuffix s) < String.length s)%nat.
Proof.
  induction s as [|c s IH]; [discriminate|].
  cbn [countySuffixTest replaceCountySuffix].
  destruct (matchCountySuffixAt (String c s)) eqn:Hat; simpl; [lia|].
  intros H. specialize (IH H). lia.
Qed.

Lemma normalize_without_match s :
  countySuffixTest s = false -> normalizeCountyName s = trim s.
Proof.
  intros H. unfold normalizeCountyName. now rewrite replace_without_match.
Qed.

Lemma normalize_with_match s :
  countySuffixTest s = true -> normalizeCountyName s <> s.
Proof.
  intros H E. apply replace_with_match in H.
  pose proof (trim_length (replaceCountySuffix s)) as L.
  unfold normalizeCountyName in E. rewrite E in L. lia.
Qed.

End Replace.

Section Pieces.

Lemma append_nil (b : string) : EmptyString +:+ b = b.
Proof. reflexivity. Qed.

Lemma append_cons (x : ascii) (a b : string) :
  String x a +:+ b = String x (a +:+ b).
Proof. reflexivity. Qed.

Lemma append_assoc (a b c : string) : (a +:+ b) +:+ c = a +:+ (b +:+ c).
Proof.
  induction a as [|x a IH]; [reflexivity|].
  rewrite !append_cons. now f_equal.
Qed.

Lemma replace_is_prefix s : exists after, s = replaceCountySuffix s +:+ after.
Proof.
  induction s as [|c s [after IH]].
  - exists EmptyString. reflexivity.
  - cbn [replaceCountySuffix].
    destruct (matchCountySuffixAt (String c s)).
    + exists (String c s). reflexivity.
    + exists after. rewrite append_cons. now f_equal.
Qed.

Lemma trimStart_is_suffix s : exists before, s = before +:+ trimStart s.
Proof.
  induction s as [|c s [before IH]].
  - exists EmptyString. reflexivity.
  - simpl. destruct (isWhiteSpace c).
    + exists (String c before). rewrite append_cons. now f_equal.
    + exists EmptyString. reflexivity.
Qed.

Lemma trimEnd_is_prefix s : exists after, s = trimEnd s +:+ after.
Proof.
  induction s as [|c s [after IH]].
  - exists EmptyString. reflexivity.
  - simpl. destruct (trimEnd s) as [|d r].
    + destruct (isWhiteSpace c).
      * exists (String c s). reflexivity.
      * exists after. rewrite append_cons. now f_equal.
    + exists after. rewrite append_cons. now f_equal.
Qed.

(** The normalizer only cuts: its result is a contiguous piece of its
    argument, so no character of the name is rewritten. *)
Lemma normalize_is_piece name :
  exists before after, name = before +:+ normalizeCountyName name +:+ after.
Proof.
  unfold normalizeCountyName, trim.
  destruct (replace_is_prefix name) as [a1 H1].
  destruct (trimStart_is_suffix (replaceCountySuffix name)) as [b H2].
  destruct (trimEnd_is_prefix (trimStart (replaceCountySuffix name))) as [a2 H3].
  exists b, (a2 +:+ a1).
  rewrite <- (append_assoc _ a2 a1), <- H3, <- append_assoc, <- H2. exact H1.
Qed.

End Pieces.

Section Suffix.

Lemma matchLiteralEnd_length pattern : forall s,
  matchLiteralEnd pattern s = true -> String.length s = String.length pattern.
Proof.
  induction pattern as [|p pattern IH]; intros [|c s] H; try discriminate.
  - reflexivity.
  - cbn [matchLiteralEnd] in H. apply andb_true_iff in H as [_ H].
    cbn [String.length]. f_equal. auto.
Qed.

Lemma append_length (a b : string) :
  String.length (a +:+ b) = (String.length a + String.length b)%nat.
Proof.
  induction a as [|x a IH]; [reflexivity|].
  rewrite append_cons. cbn [String.length]. now rewrite IH.
Qed.

Variable w : ascii.
Variable county : string.
Hypothesis w_space : isWhiteSpace w = true.
Hypothesis county_literal : matchLiteralEnd "County" county = true.

Lemma suffix_matches : matchCountySuffixAt (String w county) = true.
Proof.
  cbn [matchCountySuffixAt]. now rewrite w_space, county_literal, orb_true_r.
Qed.

(** A match that starts inside the name takes nothing but white space
    from it. *)
Lemma match_inside_name c : forall rest,
  matchCountySuffixAt (String c rest +:+ String w county) = true ->
  trimEnd (String c rest) = EmptyString.
Proof.
  intros rest. revert c. induction rest as [|d rest IH]; intros c H;
    rewrite append_cons in H; cbn [matchCountySuffixAt] in H;
    apply andb_true_iff in H as [Hc H]; cbn [trimEnd].
  - now rewrite Hc.
  - apply orb_true_iff in H as [H|H].
    + apply IH in H. cbn [trimEnd] in H. now rewrite H, Hc.
    + apply matchLiteralEnd_length in H.
      rewrite append_length in H. cbn [String.length] in H.
      apply matchLiteralEnd_length in county_literal.
      rewrite county_literal in H. cbn in H. lia.
Qed.

Lemma trimEnd_fixed_tail c rest :
  trimEnd (String c rest) = String c rest -> trimEnd rest = rest.
Proof.
  cbn [trimEnd]. destruct (trimEnd rest) as [|d r].
  - destruct (isWhiteSpace c); [discriminate|]. now intros [= <-].
  - now intros [= <-].
Qed.

Lemma replace_strips_suffix name :
  trimEnd name = name ->
  replaceCountySuffix (name +:+ String w county) = name.
Proof.
  induction name as [|c rest IH]; intros Hfix.
  - rewrite append_nil. cbn [replaceCountySuffix]. now rewrite suffix_matches.
  - destruct (matchCountySuffixAt (String c rest +:+ String w county)) eqn:M.
    + apply match_inside_name in M. rewrite M in Hfix. discriminate.
    + rewrite append_cons in *. cbn [replaceCountySuffix]. rewrite M.
      f_equal. apply IH. eapply trimEnd_fixed_tail, Hfix.
Qed.

(** A trimmed name followed by one white space and "County" in any letter
    case normalizes to the name: a polygon label "<Name> County" joins the
    record named "<Name>". *)
Lemma normalizeCountyName_strips_suffix name :
  trim name = name ->
  normalizeCountyName (name +:+ String w county) = name.
Proof.
  intros Hfix. unfold normalizeCountyName.
  rewrite replace_strips_suffix; [exact Hfix|].
  rewrite <- Hfix at 1. unfold trim. rewrite trimEnd_idempotent. exact Hfix.
Qed.

End Suffix.

(** C2, as amended.  The normalizer takes "Foo County" and " Foo " to
    "Foo" but "foo county" to "foo": the suffix is recognised in any letter
    case, and the name that remains keeps the letters it had (the result
    is always a contiguous piece of the argument). *)
Theorem normalizeCountyName_examples :
  normalizeCountyName "Foo County" = "Foo" /\
  normalizeCountyName " Foo " = "Foo" /\
  normalizeCountyName "foo county" = "foo" /\
  forall name, exists before after,
    name = before +:+ normalizeCountyName name +:+ after.
Proof.
  repeat split; try reflexivity. apply normalize_is_piece.
Qed.

(** C2 as the specification states it does not hold: the three inputs do
    not share one normal form, "foo county" keeps its lower-case f. *)
Lemma normalizeCountyName_keeps_case :
  ~ (normalizeCountyName "Foo County" = normalizeCountyName "foo county" /\
     normalizeCountyName "foo county" = normalizeCountyName " Foo " /\
     normalizeCountyName " Foo " = "Foo").
Proof. intros [H _]. vm_compute in H. discriminate. Qed.

(** A second pass of the normalizer that still finds the suffix changes
    its argument. *)
Lemma normalizeCountyName_second_pass x :
  countySuffixTest (normalizeCountyName x) = true ->
  normalizeCountyName (normalizeCountyName x) <> normalizeCountyName x.
Proof. apply normalize_with_match. Qed.

(** C6, as amended.  A second pass of the normalizer changes nothing
    whenever the first result does not itself end in white space followed
    by "County" (in any letter case). *)
Theorem normalizeCountyName_idempotent x :
  countySuffixTest (normalizeCountyName x) = false ->
  normalizeCountyName (normalizeCountyName x) = normalizeCountyName x.
Proof.
  intros T. rewrite (normalize_without_match _ T).
  unfold normalizeCountyName. apply trim_idempotent.
Qed.

Lemma normalizeCountyName_idempotent_witness :
  countySuffixTest (normalizeCountyName " El Paso County") = false /\
  normalizeCountyName (normalizeCountyName " El Paso County") =
  normalizeCountyName " El Paso County".
Proof.
  split; [reflexivity|].
  apply (normalizeCountyName_idempotent " El Paso County"). reflexivity.
Defined.

(** C6 as the specification states it does not hold: one pass removes one
    suffix, so a name that carries the suffix twice changes again under a
    second pass. *)
Lemma normalizeCountyName_not_idempotent :
  normalizeCountyName (normalizeCountyName "Foo County County") <>
  normalizeCountyName "Foo County County".
Proof. vm_compute. discriminate. Qed.

Example normalizeCountyName_two_suffixes :
  normalizeCountyName "Foo County County" = "Foo County" /\
  normalizeCountyName "Foo County" = "Foo".
Proof. split; reflexivity. Qed.

Example normalizeCountyName_el_paso :
  normalizeCountyName "El Paso County" = "El Paso".
Proof. reflexivity. Qed.

Example normalizeCountyName_other_white_space :
  normalizeCountyName
    (String "009" ("Foo" +:+ String "010" (String "160" "COUNTY"))) = "Foo".
Proof. reflexivity. Qed.

(** ** Lookup *)

(** C7.  The lookup finds a record exactly when some record's normalized
    name equals the normalized query, and a record it returns is one of
    the records and has that normalized name. *)
Theorem findCountyByName_joins (counties : list CountyData) (name : string) :
  (is_Some (findCountyByName counties name) <->
   exists county, In county counties /\
     normalizeCountyName (countyName county) = normalizeCountyName name) /\
  (forall county, findCountyByName counties name = Some county ->
     In county counties /\
     normalizeCountyName (countyName county) = normalizeCountyName name).
Proof.
  assert (Sound : forall county, findCountyByName counties name = Some county ->
     In county counties /\
     normalizeCountyName (countyName county) = normalizeCountyName name).
  { intros county H. apply find_some in H as [Hin Heq].
    split; [exact Hin | now apply String.eqb_eq]. }
  split; [split | exact Sound].
  - intros [county H]. exists county. auto.
  - intros (county & Hin & Heq).
    destruct (findCountyByName counties name) eqn:F; [eauto|].
    unfold findCountyByName in F.
    pose proof (find_none _ _ F county Hin) as N. simpl in N.
    rewrite Heq, String.eqb_refl in N. discriminate.
Qed.

Lemma findCountyByName_joins_witness :
  In blanco [foard; blanco; travis] /\
  normalizeCountyName (countyName blanco) = normalizeCountyName "Blanco County".
Proof.
  apply (proj2 (findCountyByName_joins [foard; blanco; travis] "Blanco County")
           blanco).
  reflexivity.
Defined.

Example findCountyByName_polygon_label :
  findCountyByName [foard; blanco; travis] "Blanco County" = Some blanco /\
  findCountyByName [foard; blanco; travis] "Harris" = None.
Proof. split; reflexivity. Qed.

(** ** Classification: alerts *)

Section Alerts.

Lemma severityRank_bound severity : (severityRank severity <= 3)%nat.
Proof.
  unfold severityRank.
  repeat match goal with |- context [if ?b then _ else _] => destruct b end; lia.
Qed.

Lemma worstRank_cons alert rest :
  worstRank (alert :: rest) =
  Nat.max (severityRank (severity alert)) (worstRank rest).
Proof. reflexivity. Qed.

Lemma worstRank_bound list : (worstRank list <= 3)%nat.
Proof.
  induction list as [|alert rest IH]; [cbv; lia|].
  rewrite worstRank_cons. pose proof (severityRank_bound (severity alert)). lia.
Qed.

(** One turn of the loop moves the running severity to the larger of its
    rank and the alert's rank. *)
Lemma raiseSeverity_rank rank alert :
  (rank <= 3)%nat ->
  raiseSeverity (rankName rank) alert =
  rankName (Nat.max rank (severityRank (severity alert))).
Proof.
  intros Hr. unfold raiseSeverity, severityRank.
  set (s := option_map toLowerCase (severity alert)).
  destruct (optionIs s "extreme"), (optionIs s "severe"),
    (optionIs s "moderate");
    destruct rank as [|[|[|[|?]]]]; try lia; reflexivity.
Qed.

Lemma fold_raiseSeverity list : forall rank,
  (rank <= 3)%nat ->
  fold_left raiseSeverity list (rankName rank) =
  rankName (Nat.max rank (worstRank list)).
Proof.
  induction list as [|alert rest IH]; intros rank Hr.
  - cbn. now rewrite Nat.max_0_r.
  - cbn [fold_left]. rewrite raiseSeverity_rank by exact Hr.
    pose proof (severityRank_bound (severity alert)).
    rewrite IH by lia. rewrite worstRank_cons. f_equal. lia.
Qed.

Lemma highestSeverity_worst list :
  highestSeverity list = rankName (worstRank list).
Proof. exact (fold_raiseSeverity list 0 (Nat.le_0_l 3)). Qed.

End Alerts.

(** C1.  With at least one alert, the severity the loop ends with is the
    one of the worst rank present (extreme > severe > moderate > minor,
    unknown or absent counting as minor), and the colour of the county
    under the alerts data type is decided by that worst rank alone:
    '#FFFF00' when it is minor, '#FFA500' when it is moderate, '#FF0000'
    when it is severe or extreme. *)
Theorem getColor_alerts_worst (county : CountyData) (list : list Alert) :
  alerts (data county) = Some list ->
  list <> [] ->
  highestSeverity list = rankName (worstRank list) /\
  getColor county "alerts" =
    match worstRank list with
    | 0 => "#FFFF00"
    | 1 => "#FFA500"
    | _ => "#FF0000"
    end.
Proof.
  intros Ha Hne. split; [apply highestSeverity_worst|].
  unfold getColor. cbn [String.eqb Ascii.eqb Bool.eqb]. cbn.
  rewrite Ha. destruct list as [|alert rest]; [contradiction|].
  cbn [alertsColor]. rewrite highestSeverity_worst.
  pose proof (worstRank_bound (alert :: rest)) as B.
  destruct (worstRank (alert :: rest)) as [|[|[|[|?]]]]; try lia; reflexivity.
Qed.

Lemma getColor_alerts_worst_witness :
  (highestSeverity [alertOf (Some "minor"); alertOf (Some "extreme")] = "extreme" /\
   getColor
     (withAlerts foard (Some [alertOf (Some "minor"); alertOf (Some "extreme")]))
     "alerts" = "#FF0000") /\
  (highestSeverity [alertOf (Some "minor")] = "minor" /\
   getColor (withAlerts foard (Some [alertOf (Some "minor")])) "alerts"
     = "#FFFF00").
Proof.
  split.
  - apply (getColor_alerts_worst
             (withAlerts foard (Some [alertOf (Some "minor"); alertOf (Some "extreme")]))
             [alertOf (Some "minor"); alertOf (Some "extreme")]).
    + reflexivity.
    + discriminate.
  - apply (getColor_alerts_worst
             (withAlerts foard (Some [alertOf (Some "minor")]))
             [alertOf (Some "minor")]).
    + reflexivity.
    + discriminate.
Defined.

Example getColor_alerts_not_first_not_average :
  let county severities :=
    withAlerts foard (Some (map alertOf severities)) in
  getColor (county [Some "minor"; Some "extreme"]) "alerts" = "#FF0000" /\
  getColor (county [Some "minor"]) "alerts" = "#FFFF00" /\
  getColor (county [Some "moderate"]) "alerts" = "#FFA500" /\
  getColor (county [Some "Severe"; None; Some "unheard of"]) "alerts" = "#FF0000" /\
  getColor (county [None; Some "unheard of"]) "alerts" = "#FFFF00".
Proof. repeat split. Qed.

(** ** Classification: temperature *)

Section Comparisons.

Lemma Qlt_bool_iff x y : Qlt_bool x y = true <-> (x < y)%Q.
Proof.
  unfold Qlt_bool. rewrite negb_true_iff, <- not_true_iff_false, Qle_bool_iff.
  split; [apply Qnot_le_lt | apply Qlt_not_le].
Qed.

Lemma Qlt_bool_false x y : Qlt_bool x y = false <-> (y <= x)%Q.
Proof.
  unfold Qlt_bool. rewrite negb_false_iff. apply Qle_bool_iff.
Qed.

End Comparisons.

(** C3.  For a finite temperature the colour under the temperature data
    type names the bucket: each of the five colours is returned exactly
    on its interval, closed below and open above. *)
Theorem getColor_temperature_buckets (county : CountyData) (q : Q) :
  value (temperature (data county)) = Finite q ->
  (getColor county "temperature" = "#9CA3AF" <-> (q < 0)%Q) /\
  (getColor county "temperature" = "#F7FCFD" <-> (0 <= q < 10)%Q) /\
  (getColor county "temperature" = "#FFD166" <-> (10 <= q < 20)%Q) /\
  (getColor county "temperature" = "#FF9966" <-> (20 <= q < 30)%Q) /\
  (getColor county "temperature" = "#FF5F5F" <-> (30 <= q)%Q).
Proof.
  intros Ht. unfold getColor. cbn. rewrite Ht.
  unfold temperatureColor. cbn [ltb].
  destruct (Qlt_bool q 0) eqn:H0;
    [apply Qlt_bool_iff in H0 | apply Qlt_bool_false in H0;
     destruct (Qlt_bool q 10) eqn:H1;
     [apply Qlt_bool_iff in H1 | apply Qlt_bool_false in H1;
      destruct (Qlt_bool q 20) eqn:H2;
      [apply Qlt_bool_iff in H2 | apply Qlt_bool_false in H2;
       destruct (Qlt_bool q 30) eqn:H3;
       [apply Qlt_bool_iff in H3 | apply Qlt_bool_false in H3]]]];
    repeat split; intros; try discriminate; try lra.
Qed.

Lemma getColor_temperature_buckets_witness :
  getColor (withTemperature travis (Finite 10)) "temperature" = "#FFD166".
Proof.
  apply (getColor_temperature_buckets (withTemperature travis (Finite 10)) 10).
  - reflexivity.
  - lra.
Defined.

Example temperatureColor_not_finite :
  temperatureColor NegInfinity = "#9CA3AF" /\
  temperatureColor PosInfinity = "#FF5F5F" /\
  temperatureColor NaN = "#FF5F5F".
Proof. repeat split. Qed.

(** ** Classification: visibility *)

(** C4, on the code.  [getColor] gives a county without a visibility
    reading the colour it gives a county with good visibility (10 km and
    more): the unavailable state is not told apart from that bucket. *)
Theorem getColor_visibility_null_is_good :
  value (visibility (data foard)) = None /\
  value (visibility (data blanco)) = Some (Finite 16093.44) /\
  getColor foard "visibility" = "#F7FCFD" /\
  getColor blanco "visibility" = "#F7FCFD".
Proof. repeat split. Qed.

(** C8, on the code.  [getColor] gives a reading of zero metres the
    colour of a missing reading, not the colour of the bucket below
    1000. *)
Theorem getColor_visibility_zero_is_null :
  getColor (withVisibility blanco (Some (Finite 0))) "visibility" = "#F7FCFD" /\
  getColor (withVisibility blanco None) "visibility" = "#F7FCFD" /\
  getColor (withVisibility blanco (Some (Finite 1))) "visibility" = "#FF5F5F".
Proof. repeat split. Qed.

(** The colour [getColor] gives when the reading is missing is also the
    colour of every reading of 10000 and more. *)
Lemma getColor_visibility_good (county : CountyData) (q : Q) :
  value (visibility (data county)) = Some (Finite q) ->
  (10000 <= q)%Q ->
  getColor county "visibility" = visibilityColor None.
Proof.
  intros Hv Hq. unfold getColor. cbn. rewrite Hv.
  unfold visibilityColor. cbn [JsNumber.truthy ltb].
  destruct (negb (Qeq_bool q 0)); [|reflexivity].
  assert (F : forall k, (k <= 10000)%Q -> Qlt_bool q k = false)
    by (intros k Hk; apply Qlt_bool_false; lra).
  rewrite !F by lra. reflexivity.
Qed.

(** The badge of the detail card tells a missing reading from every
    number, zero included. *)
Lemma getVisibilityBadgeColor_null_distinct (meters : number) :
  getVisibilityBadgeColor None <> getVisibilityBadgeColor (Some meters) /\
  getVisibilityBadgeColor (Some (Finite 0)) = "bg-red-500 text-white".
Proof.
  split; [|reflexivity]. unfold getVisibilityBadgeColor.
  repeat match goal with |- context [if ?b then _ else _] => destruct b end;
    discriminate.
Qed.

(** So does the label of the detail card, whatever the digits of the
    distance are. *)
Lemma getVisibilityLabel_null_distinct (milesToFixed : number -> string)
  (meters : number) :
  getVisibilityLabel milesToFixed None = "Not available" /\
  getVisibilityLabel milesToFixed (Some meters) <> "Not available".
Proof.
  split; [reflexivity|]. unfold getVisibilityLabel.
  repeat match goal with |- context [if ?b then _ else _] => destruct b end;
    intros E; vm_compute in E; discriminate.
Qed.

(** ** Hazard texts *)

Section HazardTexts.
Variable NumberToString : Q -> string.

Lemma serializeJSON_object_text properties :
  serializeJSON NumberToString (JObject properties) <> "Unknown hazard".
Proof. cbn [serializeJSON]. rewrite append_cons. discriminate. Qed.

Lemma serializeJSON_array_text items :
  serializeJSON NumberToString (JArray items) <> "Unknown hazard".
Proof. cbn [serializeJSON]. rewrite append_cons. discriminate. Qed.

Lemma firstDescriptive_no_properties hazard :
  (forall key, getProperty hazard key = None) ->
  firstDescriptive hazard descriptiveFields = None.
Proof.
  intros H. unfold descriptiveFields, firstDescriptive, truthyProperty.
  now rewrite !H.
Qed.

End HazardTexts.

(** C5, as amended.  A bare string is displayed as it is.  For an object
    the value of the first field, in the order event, type, name,
    description, phenomenon, that holds a truthy value is displayed; an
    object in which none of these fields holds a truthy value is
    displayed as its JSON text, which is never the generic label.  An
    entry that is neither a string nor an object (null, a number, a
    boolean) is displayed as "Unknown hazard".  Every entry has a
    display value. *)
Theorem getHazardDisplayText_cases (NumberToString : Q -> string) (hazard : jsval) :
  getHazardDisplayText NumberToString hazard =
    match hazard with
    | JString _ => hazard
    | JArray _ | JObject _ =>
        match firstDescriptive hazard descriptiveFields with
        | Some v => v
        | None => JString (serializeJSON NumberToString hazard)
        end
    | JNull | JBool _ | JNumber _ => JString "Unknown hazard"
    end
  /\ (match hazard with
      | JArray _ | JObject _ =>
          serializeJSON NumberToString hazard <> "Unknown hazard"
      | _ => True
      end).
Proof.
  split.
  - destruct hazard as [|b|n|s|items|properties]; try reflexivity.
    + now destruct b.
    + unfold getHazardDisplayText. cbn [typeof JsValue.truthy].
      now destruct (JsNumber.truthy n).
    + unfold getHazardDisplayText, descriptiveFields, firstDescriptive.
      cbn [typeof JsValue.truthy]. cbn [String.eqb Ascii.eqb Bool.eqb andb].
      repeat match goal with
             | |- context [truthyProperty ?h ?k] => destruct (truthyProperty h k)
             end; reflexivity.
  - destruct hazard; try exact I;
      [apply serializeJSON_array_text | apply serializeJSON_object_text].
Qed.

(** C5 as the specification states it does not hold: an object with none
    of the descriptive fields is displayed as its JSON text, not as the
    generic label. *)
Lemma getHazardDisplayText_unlabelled_object :
  firstDescriptive (JObject [("code", JString "FW")]) descriptiveFields = None /\
  getHazardDisplayText (fun _ => EmptyString) (JObject []) = JString "{}" /\
  getHazardDisplayText (fun _ => EmptyString) (JObject [("code", JString "FW")])
    <> JString "Unknown hazard".
Proof. repeat split. intros E. vm_compute in E. discriminate. Qed.

Example getHazardDisplayText_priority :
  let text := getHazardDisplayText (fun _ => EmptyString) in
  text (JString "Thunderstorm") = JString "Thunderstorm" /\
  text (JObject [("phenomenon", JString "FL"); ("type", JString "Flood");
                 ("event", JString "")]) = JString "Flood" /\
  text (JObject [("name", JString "Heat"); ("event", JString "Heat Advisory")])
    = JString "Heat Advisory" /\
  text JNull = JString "Unknown hazard" /\
  text (JNumber (Finite 7)) = JString "Unknown hazard" /\
  text (JArray []) = JString "[]".
Proof. repeat split. Qed.

Example formatHazards_texts :
  let format := formatHazards (fun _ => EmptyString) in
  format (Some []) = "None" /\
  format (Some [JString "Flood Warning"; JObject [("event", JString "Heat")];
                JObject []; JNull])
    = "Flood Warning, Heat, {}, Unknown hazard".
Proof. split; reflexivity. Qed.

(** ** The fill-colour expression *)

Section Finding.
Context {A : Type}.

Lemma find_first (f : A -> bool) (l : list A) (x : A) :
  find f l = Some x ->
  exists before after,
    l = before ++ x :: after /\ forall y, In y before -> f y = false.
Proof.
  induction l as [|a l IH]; [discriminate|]. cbn [find].
  destruct (f a) eqn:Fa.
  - intros [= <-]. exists [], l. split; [reflexivity | intros y []].
  - intros H. destruct (IH H) as (before & after & -> & Hb).
    exists (a :: before), after. split; [reflexivity|].
    intros y [<-|Hy]; auto.
Qed.

Lemma find_agree (f g : A -> bool) (l : list A) :
  (forall y, In y l -> f y = g y) -> find f l = find g l.
Proof.
  induction l as [|a l IH]; intros H; [reflexivity|]. cbn [find].
  rewrite (H a) by now left. destruct (g a); [reflexivity|].
  apply IH. intros y Hy. apply H. now right.
Qed.

Lemma find_present (f : A -> bool) (l : list A) (x : A) :
  In x l -> f x = true -> exists y, find f l = Some y /\ f y = true.
Proof.
  intros Hin Hx. destruct (find f l) as [y|] eqn:F.
  - exists y. split; [reflexivity|]. now apply find_some in F.
  - now rewrite (find_none _ _ F x Hin) in Hx.
Qed.

End Finding.

Section FillColor.
Variable dataType : string.

Lemma fold_pushCounty counties : forall matchExpression,
  fold_left (pushCounty dataType) counties matchExpression =
  matchExpression ++ expectedBranches counties dataType.
Proof.
  induction counties as [|county rest IH]; intros acc.
  - cbn. now rewrite app_nil_r.
  - cbn [fold_left]. rewrite IH. unfold pushCounty.
    rewrite <- app_assoc. reflexivity.
Qed.

Lemma generated_shape counties :
  generateFillColorExpression counties dataType =
  JString "match" :: JArray [JString "get"; JString "COUNTY"] ::
  expectedBranches counties dataType ++ [JString "#CCCCCC"].
Proof.
  unfold generateFillColorExpression. rewrite fold_pushCounty.
  now rewrite <- app_assoc.
Qed.

Lemma expected_length counties :
  length (expectedBranches counties dataType) = (2 * length counties)%nat.
Proof.
  induction counties as [|county rest IH]; [reflexivity|].
  unfold expectedBranches in *. cbn [flat_map app length]. rewrite IH. lia.
Qed.

Lemma append_cancel_r (suffix : string) : forall a b : string,
  a +:+ suffix = b +:+ suffix -> a = b.
Proof.
  induction a as [|x a IH]; intros [|y b] H.
  - reflexivity.
  - rewrite append_nil, append_cons in H.
    apply (f_equal String.length) in H.
    cbn [String.length] in H. rewrite append_length in H. lia.
  - rewrite append_nil, append_cons in H.
    apply (f_equal String.length) in H.
    cbn [String.length] in H. rewrite append_length in H. lia.
  - rewrite !append_cons in H. injection H as -> H. f_equal. auto.
Qed.

Lemma append_eqb_r (a b suffix : string) :
  String.eqb (a +:+ suffix) (b +:+ suffix) = String.eqb a b.
Proof.
  destruct (String.eqb a b) eqn:E.
  - apply String.eqb_eq in E as ->. apply String.eqb_refl.
  - apply String.eqb_neq. apply String.eqb_neq in E. intros H. apply E.
    eapply append_cancel_r, H.
Qed.

Lemma startsWith_refl (s : string) : startsWith s s = true.
Proof.
  induction s as [|c s IH]; [reflexivity|].
  cbn [startsWith]. now rewrite Ascii.eqb_refl.
Qed.

Lemma occursIn_suffix (pattern : string) : forall a,
  occursIn pattern (a +:+ pattern) = true.
Proof.
  induction a as [|c a IH].
  - rewrite append_nil. destruct pattern; [reflexivity|].
    cbn [occursIn]. now rewrite startsWith_refl.
  - rewrite append_cons. cbn [occursIn]. rewrite IH. apply orb_true_r.
Qed.

Lemma key_differs name (other : string) :
  occursIn " County" other = false ->
  String.eqb (name +:+ " County") other = false.
Proof.
  intros H. apply String.eqb_neq. intros <-.
  now rewrite occursIn_suffix in H.
Qed.

(** No key of the site is a name every object inherits. *)
Lemma key_not_inherited name :
  includes objectPrototypeNames (name +:+ " County") = false.
Proof.
  unfold includes, objectPrototypeNames. cbn [existsb].
  now rewrite !key_differs by reflexivity.
Qed.

Lemma parse_expected counties : forall seen,
  (forall county, In county counties ->
     includes seen (countyName county +:+ " County") = false) ->
  List.NoDup (map countyName counties) ->
  parseBranches seen (expectedBranches counties dataType ++ [JString "#CCCCCC"]) =
  Parsed (map (fun county => (countyName county +:+ " County",
                              JString (getColor county dataType))) counties)
         (JString "#CCCCCC").
Proof.
  induction counties as [|county rest IH]; intros seen Hseen Hnames;
    [reflexivity|].
  cbn [expectedBranches flat_map app map parseBranches].
  fold (expectedBranches rest dataType).
  rewrite (Hseen county) by now left.
  cbn [map] in Hnames. apply NoDup_cons_iff in Hnames as [Hfresh Hrest].
  rewrite IH; [reflexivity | | exact Hrest].
  intros other Hin. unfold includes. cbn [existsb].
  rewrite append_eqb_r.
  fold (includes seen (countyName other +:+ " County")).
  rewrite (Hseen other) by now right.
  rewrite orb_false_r. apply String.eqb_neq. intros E. apply Hfresh.
  rewrite <- E. now apply in_map.
Qed.

Lemma lookup_expected counties label :
  lookupCase (map (fun county => (countyName county +:+ " County",
                                  JString (getColor county dataType))) counties)
             label =
  option_map (fun county => JString (getColor county dataType))
    (find (fun county => String.eqb (countyName county +:+ " County") label)
          counties).
Proof.
  induction counties as [|county rest IH]; [reflexivity|].
  cbn [map lookupCase find].
  destruct (String.eqb (countyName county +:+ " County") label);
    [reflexivity | exact IH].
Qed.

Lemma odd_length_not_even n : Nat.even (S (S (2 * n + 1))) = false.
Proof.
  rewrite !Nat.even_succ_succ, Nat.add_1_r, Nat.even_succ, <- Nat.negb_even.
  now rewrite Nat.even_mul.
Qed.

(** A non-empty list of records with distinct names gives an expression
    MapLibre accepts, and its value at a label. *)
Lemma evalFillColor_generated counties label :
  counties <> [] ->
  List.NoDup (map countyName counties) ->
  evalFillColor (generateFillColorExpression counties dataType) label =
  Evaluated (JString
               match find (fun county =>
                             String.eqb (countyName county +:+ " County") label)
                          counties with
               | Some county => getColor county dataType
               | None => "#CCCCCC"
               end).
Proof.
  intros Hne Hnames. rewrite generated_shape.
  set (branches := expectedBranches counties dataType ++ [JString "#CCCCCC"]).
  assert (L : length (JString "match" :: JArray [JString "get"; JString "COUNTY"]
                        :: branches) = S (S (2 * length counties + 1))).
  { unfold branches. cbn [length].
    rewrite length_app, expected_length. reflexivity. }
  change (evalFillColor (JString "match" ::
            JArray [JString "get"; JString "COUNTY"] :: branches) label)
    with (if (length (JString "match" :: JArray [JString "get"; JString "COUNTY"]
                        :: branches) <? 5)%nat then Refused TooFewArguments
          else if Nat.even (length (JString "match" ::
                    JArray [JString "get"; JString "COUNTY"] :: branches))
          then Refused EvenArguments
          else match parseBranches objectPrototypeNames branches with
               | Parsed cases otherwise =>
                   Evaluated match lookupCase cases label with
                             | Some output => output
                             | None => otherwise
                             end
               | ParseRefused error => Refused error
               | ParseNotModelled => NotModelled
               end).
  rewrite L, odd_length_not_even.
  destruct counties as [|county rest]; [contradiction|].
  destruct (Nat.ltb_spec (S (S (2 * length (county :: rest) + 1))) 5) as [Hlt|_];
    [cbn [length] in Hlt; lia|].
  unfold branches.
  rewrite parse_expected by (auto using key_not_inherited).
  rewrite lookup_expected.
  now destruct (find _ (county :: rest)).
Qed.

Lemma find_own_key counties county :
  List.NoDup (map countyName counties) ->
  In county counties ->
  find (fun other =>
          String.eqb (countyName other +:+ " County")
                     (countyName county +:+ " County")) counties = Some county.
Proof.
  induction counties as [|first rest IH]; intros Hnames Hin; [contradiction|].
  cbn [map] in Hnames. apply NoDup_cons_iff in Hnames as [Hfresh Hrest].
  cbn [find]. rewrite append_eqb_r. destruct Hin as [->|Hin].
  - now rewrite String.eqb_refl.
  - destruct (String.eqb (countyName first) (countyName county)) eqn:E.
    + apply String.eqb_eq in E. exfalso. apply Hfresh. rewrite E.
      now apply in_map.
    + auto.
Qed.

End FillColor.

(** C10, as amended.  The expression is the match header, then for each
    record in order the key "<countyName> County" followed by the
    record's colour, then the fallback '#CCCCCC'.  When there is at least
    one record and the county names are distinct, MapLibre accepts the
    expression; it then gives the label of each record that record's
    colour, and the fallback to every label that is no record's key. *)
Theorem generateFillColorExpression_branches
  (counties : list CountyData) (dataType : string) :
  generateFillColorExpression counties dataType =
    [JString "match"; JArray [JString "get"; JString "COUNTY"]] ++
    flat_map (fun county =>
                [JString (countyName county +:+ " County");
                 JString (getColor county dataType)]) counties ++
    [JString "#CCCCCC"]
  /\ (counties <> [] ->
      List.NoDup (map countyName counties) ->
      (forall county, In county counties ->
         evalFillColor (generateFillColorExpression counties dataType)
           (countyName county +:+ " County") =
         Evaluated (JString (getColor county dataType))) /\
      (forall label,
         (forall county, In county counties ->
                         countyName county +:+ " County" <> label) ->
         evalFillColor (generateFillColorExpression counties dataType) label =
         Evaluated (JString "#CCCCCC"))).
Proof.
  split; [apply generated_shape|].
  intros Hne Hnames. split.
  - intros county Hin. rewrite evalFillColor_generated by assumption.
    now rewrite find_own_key.
  - intros label Hother. rewrite evalFillColor_generated by assumption.
    destruct (find _ counties) as [county|] eqn:F; [|reflexivity].
    apply find_some in F as [Hin Heq]. apply String.eqb_eq in Heq.
    now apply Hother in Hin.
Qed.

Lemma generateFillColorExpression_branches_witness :
  evalFillColor (generateFillColorExpression [foard; blanco; travis] "visibility")
    "Travis County" = Evaluated (JString "#FFD166") /\
  evalFillColor (generateFillColorExpression [foard; blanco; travis] "visibility")
    "Harris County" = Evaluated (JString "#CCCCCC").
Proof.
  assert (Hne : [foard; blanco; travis] <> []) by discriminate.
  assert (Hnames : List.NoDup (map countyName [foard; blanco; travis])).
  { repeat constructor; cbn; intros H;
      repeat (destruct H as [H|H]; try discriminate H); exact H. }
  destruct (proj2 (generateFillColorExpression_branches
                     [foard; blanco; travis] "visibility") Hne Hnames)
    as [Own Other].
  split.
  - apply (Own travis). cbn. tauto.
  - apply Other. intros county [<-|[<-|[<-|[]]]]; discriminate.
Defined.

(** C10 as it was stated does not hold of every list: without a record
    the expression has no label/output pair, MapLibre refuses it, and no
    label is given the fallback colour. *)
Lemma generateFillColorExpression_empty_refused :
  generateFillColorExpression [] "temperature" =
    [JString "match"; JArray [JString "get"; JString "COUNTY"];
     JString "#CCCCCC"] /\
  evalFillColor (generateFillColorExpression [] "temperature") "Harris County"
    = Refused TooFewArguments /\
  evalFillColor (generateFillColorExpression [] "temperature") "Harris County"
    <> Evaluated (JString "#CCCCCC").
Proof. repeat split. discriminate. Qed.

Example generateFillColorExpression_repeated_name :
  evalFillColor
    (generateFillColorExpression [travis; withTemperature travis (Finite 30)]
       "temperature") "Travis County" = Refused DuplicateLabel.
Proof. reflexivity. Qed.

Example generateFillColorExpression_sample :
  generateFillColorExpression [foard; travis] "hazards" =
  [JString "match"; JArray [JString "get"; JString "COUNTY"];
   JString "Foard County"; JString "#F7FCFD";
   JString "Travis County"; JString "#FF5F5F";
   JString "#CCCCCC"].
Proof. reflexivity. Qed.

(** * Further properties of the code *)

(** ** The normalizer: normal forms and suffixes *)

Section NormalForms.

Lemma matchCountySuffixAt_length s :
  matchCountySuffixAt s = true -> (7 <= String.length s)%nat.
Proof.
  induction s as [|c s IH]; [discriminate|].
  cbn [matchCountySuffixAt String.length]. intros H.
  apply andb_true_iff in H as [_ H]. apply orb_true_iff in H as [H|H].
  - apply IH in H. lia.
  - apply matchLiteralEnd_length in H. rewrite H. cbn. lia.
Qed.

Lemma replace_removes_seven s :
  countySuffixTest s = true ->
  (String.length (replaceCountySuffix s) + 7 <= String.length s)%nat.
Proof.
  induction s as [|c s IH]; [discriminate|].
  cbn [countySuffixTest replaceCountySuffix].
  destruct (matchCountySuffixAt (String c s)) eqn:Hat.
  - intros _. apply matchCountySuffixAt_length in Hat. cbn in *. lia.
  - cbn [orb String.length]. intros H. specialize (IH H). lia.
Qed.

End NormalForms.

(** X1.  The strings the normalizer leaves alone are exactly the trimmed
    strings that do not end in white space followed by "County". *)
Theorem normalizeCountyName_fixed_points (x : string) :
  normalizeCountyName x = x <->
  trim x = x /\ countySuffixTest x = false.
Proof.
  split.
  - intros E. destruct (countySuffixTest x) eqn:T.
    + now apply normalize_with_match in T.
    + split; [|reflexivity]. now rewrite <- (normalize_without_match _ T).
  - intros [Htrim T]. now rewrite (normalize_without_match _ T).
Qed.

(** X2.  Without the suffix the normalizer is [trim]; with it, at least
    the seven characters of a white space and "County" go; in both cases
    the result is trimmed. *)
Theorem normalizeCountyName_cases (x : string) :
  (if countySuffixTest x
   then (String.length (normalizeCountyName x) + 7 <= String.length x)%nat
   else normalizeCountyName x = trim x) /\
  trim (normalizeCountyName x) = normalizeCountyName x.
Proof.
  split; [|apply trim_idempotent].
  destruct (countySuffixTest x) eqn:T.
  - apply replace_removes_seven in T.
    pose proof (trim_length (replaceCountySuffix x)).
    unfold normalizeCountyName. lia.
  - now apply normalize_without_match.
Qed.

Section AnyCase.

Lemma canonicalize_County (c : ascii) :
  (canonicalize "C" =? canonicalize c)%N = Ascii.eqb (lowerChar c) "c" /\
  (canonicalize "o" =? canonicalize c)%N = Ascii.eqb (lowerChar c) "o" /\
  (canonicalize "u" =? canonicalize c)%N = Ascii.eqb (lowerChar c) "u" /\
  (canonicalize "n" =? canonicalize c)%N = Ascii.eqb (lowerChar c) "n" /\
  (canonicalize "t" =? canonicalize c)%N = Ascii.eqb (lowerChar c) "t" /\
  (canonicalize "y" =? canonicalize c)%N = Ascii.eqb (lowerChar c) "y".
Proof.
  destruct c as [[] [] [] [] [] [] [] []]; vm_compute; repeat split.
Qed.

(** The literal of the pattern accepts the strings that are "county"
    once in lower case. *)
Lemma matchLiteralEnd_County s :
  matchLiteralEnd "County" s = String.eqb (toLowerCase s) "county".
Proof.
  destruct s as [|c1 [|c2 [|c3 [|c4 [|c5 [|c6 rest]]]]]];
    cbn [matchLiteralEnd toLowerCase String.eqb];
    repeat match goal with
           | |- context [(canonicalize _ =? canonicalize ?c)%N] =>
               let H := fresh in
               destruct (canonicalize_County c) as (H & ?);
               first [rewrite H | clear H];
               repeat match goal with
                      | E : _ /\ _ |- _ =>
                          destruct E as (H & E); first [rewrite H | clear H]
                      | E : _ = _ |- _ => first [rewrite E | clear E]
                      end
           end;
    repeat match goal with
           | |- context [Ascii.eqb (lowerChar ?c) ?l] =>
               destruct (Ascii.eqb (lowerChar c) l)
           end;
    try reflexivity.
  now destruct rest.
Qed.

End AnyCase.

Section SuffixRun.
Variable spaces county : string.
Hypothesis spaces_white : allWhiteSpace spaces = true.
Hypothesis spaces_some : spaces <> EmptyString.
Hypothesis county_word : toLowerCase county = "county".

Lemma county_length : String.length county = 6%nat.
Proof.
  assert (M : matchLiteralEnd "County" county = true)
    by (rewrite matchLiteralEnd_County, county_word; reflexivity).
  exact (matchLiteralEnd_length _ _ M).
Qed.

Lemma run_matches : matchCountySuffixAt (spaces +:+ county) = true.
Proof.
  assert (G : forall sp, allWhiteSpace sp = true ->
            sp = EmptyString \/ matchCountySuffixAt (sp +:+ county) = true).
  { induction sp as [|c sp IH]; [now left|]. cbn [allWhiteSpace].
    intros H. apply andb_true_iff in H as [Hc Hsp]. right.
    rewrite append_cons. cbn [matchCountySuffixAt]. rewrite Hc. cbn [andb].
    destruct (IH Hsp) as [->| ->]; [|reflexivity].
    rewrite append_nil, matchLiteralEnd_County, county_word.
    apply orb_true_r. }
  destruct (G spaces spaces_white) as [E|E]; [contradiction | exact E].
Qed.

Lemma run_match_inside c : forall rest,
  matchCountySuffixAt (String c rest +:+ spaces +:+ county) = true ->
  trimEnd (String c rest) = EmptyString.
Proof.
  intros rest. revert c. induction rest as [|d rest IH]; intros c H;
    rewrite append_cons in H; cbn [matchCountySuffixAt] in H;
    apply andb_true_iff in H as [Hc H]; cbn [trimEnd].
  - now rewrite Hc.
  - apply orb_true_iff in H as [H|H].
    + apply IH in H. cbn [trimEnd] in H. now rewrite H, Hc.
    + apply matchLiteralEnd_length in H.
      rewrite !append_length, county_length in H.
      cbn [String.length] in H. lia.
Qed.

Lemma run_replace name :
  trimEnd name = name ->
  replaceCountySuffix (name +:+ spaces +:+ county) = name.
Proof.
  induction name as [|c rest IH]; intros Hfix.
  - rewrite append_nil.
    assert (M := run_matches).
    destruct (spaces +:+ county); [discriminate|].
    cbn [replaceCountySuffix]. now rewrite M.
  - destruct (matchCountySuffixAt (String c rest +:+ spaces +:+ county)) eqn:M.
    + apply run_match_inside in M. rewrite M in Hfix. discriminate.
    + rewrite append_cons in *. cbn [replaceCountySuffix]. rewrite M.
      f_equal. apply IH. eapply trimEnd_fixed_tail, Hfix.
Qed.

End SuffixRun.

Section Runs.

Lemma normal_form_trimmed name :
  normalizeCountyName name = name -> trim name = name.
Proof.
  intros E. destruct (countySuffixTest name) eqn:T.
  - now apply normalize_with_match in T.
  - now rewrite <- (normalize_without_match _ T).
Qed.

Lemma normalize_run name spaces county :
  trim name = name ->
  allWhiteSpace spaces = true ->
  spaces <> EmptyString ->
  toLowerCase county = "county" ->
  normalizeCountyName (name +:+ spaces +:+ county) = name.
Proof.
  intros Hfix W S C. unfold normalizeCountyName.
  rewrite run_replace; try assumption.
  rewrite <- Hfix at 1. unfold trim. rewrite trimEnd_idempotent. exact Hfix.
Qed.

End Runs.

(** X3.  A trimmed name followed by any run of white space and the word
    "County" in any letter case normalizes to the name. *)
Theorem normalizeCountyName_strips_run (name spaces county : string) :
  trim name = name ->
  allWhiteSpace spaces = true ->
  spaces <> EmptyString ->
  toLowerCase county = "county" ->
  normalizeCountyName (name +:+ spaces +:+ county) = name.
Proof.
  apply normalize_run.
Qed.

Lemma normalizeCountyName_strips_run_witness :
  normalizeCountyName ("El Paso" +:+ (String "009" " ") +:+ "COUNTY") = "El Paso".
Proof.
  apply (normalizeCountyName_strips_run "El Paso" (String "009" " ") "COUNTY").
  - reflexivity.
  - reflexivity.
  - discriminate.
  - reflexivity.
Defined.

(** ** Lookup: first match, polygon labels, and the handlers of the map *)

Section Labels.

Lemma startsWith_County_overlap name :
  startsWith (name +:+ " County") " County" = true ->
  name = EmptyString \/ startsWith name " County" = true.
Proof.
  intros H.
  destruct name as [|c1 [|c2 [|c3 [|c4 [|c5 [|c6 [|c7 rest]]]]]]];
    [now left | right ..];
    rewrite ?append_cons, ?append_nil in H; cbn [startsWith] in *;
    repeat match type of H with
           | context [Ascii.eqb ?a ?c] =>
               is_var c; destruct (Ascii.eqb a c)
           end;
    try discriminate H; try reflexivity.
  now destruct rest.
Qed.

Lemma removeFirst_absent pattern s :
  occursIn pattern s = false -> removeFirst pattern s = s.
Proof.
  induction s as [|c s IH]; cbn [occursIn removeFirst]; intros H;
    apply orb_false_iff in H as [Hs Hrest]; rewrite Hs; [reflexivity|].
  f_equal. auto.
Qed.

Lemma removeFirst_County_suffix name :
  occursIn " County" name = false ->
  removeFirst " County" (name +:+ " County") = name.
Proof.
  induction name as [|c rest IH]; [reflexivity|].
  cbn [occursIn]. intros H. apply orb_false_iff in H as [Hs Hrest].
  rewrite append_cons. cbn [removeFirst].
  destruct (startsWith (String c (rest +:+ " County")) " County") eqn:S.
  - rewrite <- append_cons in S.
    apply startsWith_County_overlap in S as [S|S]; [discriminate | congruence].
  - f_equal. auto.
Qed.

End Labels.

(** X4.  The lookup returns the first record with the wanted normalized
    name: no record before it in the list has that name. *)
Theorem findCountyByName_first
  (counties : list CountyData) (name : string) (county : CountyData) :
  findCountyByName counties name = Some county ->
  exists before after,
    counties = before ++ county :: after /\
    forall other, In other before ->
      normalizeCountyName (countyName other) <> normalizeCountyName name.
Proof.
  intros H. apply find_first in H as (before & after & -> & Hb).
  exists before, after. split; [reflexivity|].
  intros other Hin. apply String.eqb_neq. now apply Hb.
Qed.

Lemma findCountyByName_first_witness :
  exists before after,
    [foard; blanco; travis; withTemperature blanco (Finite 30)]
      = before ++ blanco :: after /\
    forall other, In other before ->
      normalizeCountyName (countyName other) <> normalizeCountyName " Blanco County".
Proof.
  apply (findCountyByName_first
           [foard; blanco; travis; withTemperature blanco (Finite 30)]
           " Blanco County" blanco).
  reflexivity.
Defined.

(** X5.  For a name in normal form, asking for the name followed by white
    space and "County" in any letter case is asking for the name. *)
Theorem findCountyByName_label
  (counties : list CountyData) (name spaces county : string) :
  normalizeCountyName name = name ->
  allWhiteSpace spaces = true ->
  spaces <> EmptyString ->
  toLowerCase county = "county" ->
  findCountyByName counties (name +:+ spaces +:+ county) =
  findCountyByName counties name.
Proof.
  intros N W S C. unfold findCountyByName.
  rewrite normalize_run by auto using normal_form_trimmed.
  now rewrite N.
Qed.

Lemma findCountyByName_label_witness :
  findCountyByName [foard; blanco; travis] ("Travis" +:+ "  " +:+ "county") =
  findCountyByName [foard; blanco; travis] "Travis".
Proof.
  apply (findCountyByName_label [foard; blanco; travis] "Travis" "  " "county").
  - reflexivity.
  - reflexivity.
  - discriminate.
  - reflexivity.
Defined.

(** X6.  The handlers of the map look a polygon up by its label with the
    first " County" cut out: for a label "<name> County" whose name does
    not contain " County" that is the lookup of the name, and for a label
    without " County" it is the lookup of the label. *)
Theorem countyOfFeature_label (counties : list CountyData) (name : string) :
  occursIn " County" name = false ->
  MapContainer.countyOfFeature counties (name +:+ " County") =
    findCountyByName counties name /\
  MapContainer.countyOfFeature counties name = findCountyByName counties name.
Proof.
  intros H. unfold MapContainer.countyOfFeature.
  now rewrite removeFirst_County_suffix, removeFirst_absent.
Qed.

Lemma countyOfFeature_label_witness :
  MapContainer.countyOfFeature [foard; blanco; travis] ("Blanco" +:+ " County") =
    findCountyByName [foard; blanco; travis] "Blanco" /\
  MapContainer.countyOfFeature [foard; blanco; travis] "Blanco" =
    findCountyByName [foard; blanco; travis] "Blanco".
Proof.
  apply (countyOfFeature_label [foard; blanco; travis] "Blanco"). reflexivity.
Defined.

(** X7.  When the names of the records are in normal form and distinct,
    the polygon labelled "<countyName> County" of a record is painted
    with the colour of that record, and a click on it shows that
    record. *)
Theorem painted_record_is_shown_record
  (counties : list CountyData) (record : CountyData) :
  (forall county, In county counties ->
     normalizeCountyName (countyName county) = countyName county) ->
  List.NoDup (map countyName counties) ->
  In record counties ->
  occursIn " County" (countyName record) = false ->
  MapContainer.countyOfFeature counties (countyName record +:+ " County")
    = Some record /\
  forall dataType,
    evalFillColor (generateFillColorExpression counties dataType)
      (countyName record +:+ " County") = Evaluated (JString (getColor record dataType)).
Proof.
  intros Hnormal Hnames Hin Hocc.
  assert (Hne : counties <> []) by (intros ->; contradiction).
  split.
  - unfold MapContainer.countyOfFeature.
    rewrite removeFirst_County_suffix by exact Hocc.
    unfold findCountyByName. rewrite (Hnormal record Hin).
    rewrite <- (find_own_key counties record Hnames Hin).
    apply find_agree. intros y Hy.
    now rewrite (Hnormal y Hy), append_eqb_r.
  - intros dataType. rewrite evalFillColor_generated by assumption.
    now rewrite find_own_key.
Qed.

Lemma painted_record_is_shown_record_witness :
  MapContainer.countyOfFeature [foard; blanco; travis]
    (countyName travis +:+ " County") = Some travis /\
  forall dataType,
    evalFillColor (generateFillColorExpression [foard; blanco; travis] dataType)
      (countyName travis +:+ " County") = Evaluated (JString (getColor travis dataType)).
Proof.
  apply (painted_record_is_shown_record [foard; blanco; travis] travis).
  - intros county [<-|[<-|[<-|[]]]]; reflexivity.
  - repeat constructor; cbn; intros H;
      repeat (destruct H as [H|H]; try discriminate H); exact H.
  - cbn. tauto.
  - reflexivity.
Defined.

(** ** Colours: the remaining data types, and the badges of the card *)

Section NumberTests.

Lemma eqb_Finite x y : eqb (Finite x) (Finite y) = true <-> (x == y)%Q.
Proof. apply Qeq_bool_iff. Qed.

Lemma leb_Finite x y : leb (Finite x) (Finite y) = true <-> (x <= y)%Q.
Proof.
  unfold leb. cbn [ltb eqb]. rewrite orb_true_iff, Qlt_bool_iff, Qeq_bool_iff.
  split; [intros [H|H]; lra|].
  intros H. destruct (Qlt_le_dec x y); [now left | right; lra].
Qed.

Lemma leb_Finite_false x y : leb (Finite x) (Finite y) = false <-> (y < x)%Q.
Proof.
  rewrite <- not_true_iff_false, leb_Finite. split; [apply Qnot_le_lt | lra].
Qed.

Lemma eqb_Finite_false x y : eqb (Finite x) (Finite y) = false <-> ~ (x == y)%Q.
Proof. now rewrite <- not_true_iff_false, eqb_Finite. Qed.

Lemma severityColor_range name :
  In (severityColor name) ["#FF0000"; "#FFA500"; "#FFFF00"].
Proof.
  unfold severityColor.
  repeat match goal with |- context [if ?b then _ else _] => destruct b end;
    cbn; tauto.
Qed.

Lemma worstRank_permutation (l1 l2 : list Alert) :
  Permutation l1 l2 -> worstRank l1 = worstRank l2.
Proof.
  induction 1 as [|a l l' _ IH|a b l|l l' l'' _ IH1 _ IH2].
  - reflexivity.
  - rewrite !worstRank_cons. now rewrite IH.
  - rewrite !worstRank_cons. lia.
  - congruence.
Qed.

End NumberTests.

(** X8.  For a finite probability the colour under the precipitation data
    type is white exactly at zero, and otherwise names the bucket, closed
    above: up to 20 (negative values included), up to 40, up to 60, up to
    80, and above 80. *)
Theorem getColor_precipitation_buckets (county : CountyData) (q : Q) :
  value (probabilityOfPrecipitation (data county)) = Finite q ->
  (getColor county "precipitation" = "#FFFFFF" <-> (q == 0)%Q) /\
  (getColor county "precipitation" = "#E6F0FF" <-> (~ q == 0 /\ q <= 20)%Q) /\
  (getColor county "precipitation" = "#B3D9FF" <-> (20 < q <= 40)%Q) /\
  (getColor county "precipitation" = "#80C2FF" <-> (40 < q <= 60)%Q) /\
  (getColor county "precipitation" = "#4DA6FF" <-> (60 < q <= 80)%Q) /\
  (getColor county "precipitation" = "#1A8CFF" <-> (80 < q)%Q).
Proof.
  intros Hp. unfold getColor. cbn. rewrite Hp. unfold precipitationColor.
  destruct (eqb (Finite q) (Finite 0)) eqn:H0;
    [apply eqb_Finite in H0 | apply eqb_Finite_false in H0;
     destruct (leb (Finite q) (Finite 20)) eqn:H1;
     [apply leb_Finite in H1 | apply leb_Finite_false in H1;
      destruct (leb (Finite q) (Finite 40)) eqn:H2;
      [apply leb_Finite in H2 | apply leb_Finite_false in H2;
       destruct (leb (Finite q) (Finite 60)) eqn:H3;
       [apply leb_Finite in H3 | apply leb_Finite_false in H3;
        destruct (leb (Finite q) (Finite 80)) eqn:H4;
        [apply leb_Finite in H4 | apply leb_Finite_false in H4]]]]];
    repeat split; intros; try discriminate; try tauto; try lra.
Qed.

Lemma getColor_precipitation_buckets_witness :
  getColor travis "precipitation" = "#80C2FF".
Proof.
  apply (getColor_precipitation_buckets travis 60).
  - reflexivity.
  - lra.
Defined.

(** X9.  For a finite visibility the colour under the visibility data type
    is the very-poor colour below 1000 except at zero, the poor colour on
    [1000, 5000), the moderate colour on [5000, 10000), and '#F7FCFD' at
    zero and from 10000 on. *)
Theorem getColor_visibility_buckets (county : CountyData) (q : Q) :
  value (visibility (data county)) = Some (Finite q) ->
  (getColor county "visibility" = "#FF5F5F" <-> (~ q == 0 /\ q < 1000)%Q) /\
  (getColor county "visibility" = "#FF9966" <-> (1000 <= q < 5000)%Q) /\
  (getColor county "visibility" = "#FFD166" <-> (5000 <= q < 10000)%Q) /\
  (getColor county "visibility" = "#F7FCFD" <-> (q == 0 \/ 10000 <= q)%Q).
Proof.
  intros Hv. unfold getColor. cbn. rewrite Hv.
  unfold visibilityColor. cbn [JsNumber.truthy ltb negb].
  rewrite negb_involutive.
  destruct (Qeq_bool q 0) eqn:H0;
    [apply Qeq_bool_iff in H0 | apply Qeq_bool_neq in H0;
     destruct (Qlt_bool q 1000) eqn:H1;
     [apply Qlt_bool_iff in H1 | apply Qlt_bool_false in H1;
      destruct (Qlt_bool q 5000) eqn:H2;
      [apply Qlt_bool_iff in H2 | apply Qlt_bool_false in H2;
       destruct (Qlt_bool q 10000) eqn:H3;
       [apply Qlt_bool_iff in H3 | apply Qlt_bool_false in H3]]]];
    repeat split; intros; try discriminate; try tauto; try lra.
Qed.

Lemma getColor_visibility_buckets_witness :
  getColor travis "visibility" = "#FFD166".
Proof.
  apply (getColor_visibility_buckets travis 5000).
  - reflexivity.
  - lra.
Defined.

(** X10.  The card shows its alerts section exactly for the counties the
    map paints red, orange or yellow under the alerts data type; the
    others are painted '#F7FCFD'. *)
Theorem alerts_section_and_colour (county : CountyData) :
  (hasAlerts county = true <->
   In (getColor county "alerts") ["#FF0000"; "#FFA500"; "#FFFF00"]) /\
  (hasAlerts county = false <-> getColor county "alerts" = "#F7FCFD").
Proof.
  unfold hasAlerts, getColor. cbn [String.eqb Ascii.eqb Bool.eqb]. cbn.
  destruct (alerts (data county)) as [[|alert rest]|]; cbn [alertsColor].
  1, 3: split; split; try discriminate; try reflexivity;
        intros [H|[H|[H|[]]]]; discriminate.
  pose proof (severityColor_range (highestSeverity (alert :: rest))) as R.
  split; split; try discriminate; try (intros _; exact R); try reflexivity.
  intros E. rewrite E in R. destruct R as [H|[H|[H|[]]]]; discriminate.
Qed.

(** X11.  The colour under the alerts data type does not depend on the
    order of the alerts. *)
Theorem getColor_alerts_permutation
  (county1 county2 : CountyData) (list1 list2 : list Alert) :
  alerts (data county1) = Some list1 ->
  alerts (data county2) = Some list2 ->
  Permutation list1 list2 ->
  getColor county1 "alerts" = getColor county2 "alerts".
Proof.
  intros H1 H2 P. unfold getColor. cbn [String.eqb Ascii.eqb Bool.eqb]. cbn.
  rewrite H1, H2.
  destruct list1 as [|a1 r1].
  - apply Permutation_nil in P. now subst.
  - destruct list2 as [|a2 r2].
    + symmetry in P. apply Permutation_nil in P. discriminate.
    + cbn [alertsColor]. rewrite !highestSeverity_worst.
      now rewrite (worstRank_permutation _ _ P).
Qed.

Lemma getColor_alerts_permutation_witness :
  getColor (withAlerts foard (Some [alertOf (Some "Severe"); alertOf None;
                                    alertOf (Some "moderate")])) "alerts" =
  getColor (withAlerts blanco (Some [alertOf None; alertOf (Some "moderate");
                                     alertOf (Some "Severe")])) "alerts".
Proof.
  apply (getColor_alerts_permutation _ _
           [alertOf (Some "Severe"); alertOf None; alertOf (Some "moderate")]
           [alertOf None; alertOf (Some "moderate"); alertOf (Some "Severe")]).
  - reflexivity.
  - reflexivity.
  - apply perm_trans with
      [alertOf None; alertOf (Some "Severe"); alertOf (Some "moderate")].
    + apply perm_swap.
    + apply perm_skip, perm_swap.
Defined.

(** X12.  For a reading that is a number other than zero and NaN, the
    badge of the card and the colour of the map name the same visibility
    bucket. *)
Theorem visibility_badge_matches_colour (county : CountyData) (meters : number) :
  value (visibility (data county)) = Some meters ->
  JsNumber.truthy meters = true ->
  (getColor county "visibility" = "#FF5F5F" <->
   getVisibilityBadgeColor (Some meters) = "bg-red-500 text-white") /\
  (getColor county "visibility" = "#FF9966" <->
   getVisibilityBadgeColor (Some meters) = "bg-orange-500") /\
  (getColor county "visibility" = "#FFD166" <->
   getVisibilityBadgeColor (Some meters) = "bg-yellow-400") /\
  (getColor county "visibility" = "#F7FCFD" <->
   getVisibilityBadgeColor (Some meters) = "bg-blue-500 text-white").
Proof.
  intros Hv Ht. unfold getColor. cbn. rewrite Hv.
  unfold visibilityColor, getVisibilityBadgeColor. rewrite Ht. cbn [negb].
  destruct (ltb meters (Finite 1000)), (ltb meters (Finite 5000)),
    (ltb meters (Finite 10000));
    repeat split; intros; try discriminate; reflexivity.
Qed.

Lemma visibility_badge_matches_colour_witness :
  getColor travis "visibility" = "#FFD166" <->
  getVisibilityBadgeColor (Some (Finite 5000)) = "bg-yellow-400".
Proof.
  apply (visibility_badge_matches_colour travis (Finite 5000)); reflexivity.
Defined.

(** X13.  For every probability the badge of the card and the colour of
    the map name the same precipitation bucket. *)
Theorem precipitation_badge_matches_colour (county : CountyData) :
  let probability := value (probabilityOfPrecipitation (data county)) in
  (getColor county "precipitation" = "#FFFFFF" <->
   getPrecipitationBadgeColor probability
     = "bg-white text-black border border-gray-300") /\
  (getColor county "precipitation" = "#E6F0FF" <->
   getPrecipitationBadgeColor probability = "bg-blue-100 text-blue-800") /\
  (getColor county "precipitation" = "#B3D9FF" <->
   getPrecipitationBadgeColor probability = "bg-blue-200 text-blue-800") /\
  (getColor county "precipitation" = "#80C2FF" <->
   getPrecipitationBadgeColor probability = "bg-blue-300 text-blue-800") /\
  (getColor county "precipitation" = "#4DA6FF" <->
   getPrecipitationBadgeColor probability = "bg-blue-400 text-white") /\
  (getColor county "precipitation" = "#1A8CFF" <->
   getPrecipitationBadgeColor probability = "bg-blue-500 text-white").
Proof.
  cbv zeta. unfold getColor. cbn.
  unfold precipitationColor, getPrecipitationBadgeColor.
  set (p := value (probabilityOfPrecipitation (data county))).
  destruct (eqb p (Finite 0)), (leb p (Finite 20)), (leb p (Finite 40)),
    (leb p (Finite 60)), (leb p (Finite 80));
    repeat split; intros; try discriminate; reflexivity.
Qed.

(** X14.  The badge each alert gets in the card and the colour the map
    gives the county agree: the county is red exactly when some alert has
    a red badge (extreme or severe), and yellow exactly when every alert
    has the yellow badge of a minor alert or the blue one of an unknown
    severity. *)
Theorem alert_badges_and_colour (county : CountyData) (list : list Alert) :
  alerts (data county) = Some list ->
  list <> [] ->
  (getColor county "alerts" = "#FF0000" <->
   Exists (fun alert =>
             In (getSeverityColor (severity alert))
                ["bg-red-700 text-white"; "bg-red-500 text-white"]) list) /\
  (getColor county "alerts" = "#FFFF00" <->
   Forall (fun alert =>
             In (getSeverityColor (severity alert))
                ["bg-yellow-400"; "bg-blue-500 text-white"]) list).
Proof.
  intros Ha Hne.
  assert (Badge : forall alert,
    ((2 <= severityRank (severity alert))%nat <->
     In (getSeverityColor (severity alert))
        ["bg-red-700 text-white"; "bg-red-500 text-white"]) /\
    ((severityRank (severity alert) <= 0)%nat <->
     In (getSeverityColor (severity alert))
        ["bg-yellow-400"; "bg-blue-500 text-white"])).
  { intros alert. unfold severityRank, getSeverityColor.
    set (s := option_map toLowerCase (severity alert)).
    destruct (optionIs s "extreme"), (optionIs s "severe"),
      (optionIs s "moderate"), (optionIs s "minor"); cbn;
      split; split; intros H; try lia; try (now auto);
      repeat (destruct H as [H|H]; try discriminate H); contradiction. }
  assert (Red : (2 <= worstRank list)%nat <->
    Exists (fun alert =>
              In (getSeverityColor (severity alert))
                 ["bg-red-700 text-white"; "bg-red-500 text-white"]) list).
  { clear Ha Hne. induction list as [|alert rest IH].
    - cbn. split; [lia | intros H; inversion H].
    - destruct (Badge alert) as [Bred _].
      rewrite worstRank_cons, Exists_cons, <- IH, <- Bred. lia. }
  assert (Yellow : (worstRank list <= 0)%nat <->
    Forall (fun alert =>
              In (getSeverityColor (severity alert))
                 ["bg-yellow-400"; "bg-blue-500 text-white"]) list).
  { clear Ha Hne Red. induction list as [|alert rest IH].
    - cbn. split; [constructor | lia].
    - destruct (Badge alert) as [_ Byellow].
      rewrite worstRank_cons, Forall_cons_iff, <- IH, <- Byellow. lia. }
  assert (Colour : getColor county "alerts" =
                   severityColor (rankName (worstRank list))).
  { unfold getColor. cbn [String.eqb Ascii.eqb Bool.eqb]. cbn. rewrite Ha.
    destruct list; [contradiction|]. cbn [alertsColor].
    now rewrite highestSeverity_worst. }
  rewrite Colour, <- Red, <- Yellow. pose proof (worstRank_bound list) as B.
  destruct (worstRank list) as [|[|[|[|?]]]]; cbn; repeat split;
    intros; try discriminate; try lia; reflexivity.
Qed.

Lemma alert_badges_and_colour_witness :
  getColor (withAlerts foard (Some [alertOf (Some "Minor"); alertOf None]))
    "alerts" = "#FFFF00".
Proof.
  apply (proj2 (alert_badges_and_colour
                  (withAlerts foard (Some [alertOf (Some "Minor"); alertOf None]))
                  [alertOf (Some "Minor"); alertOf None]
                  eq_refl ltac:(discriminate))).
  constructor; [now left | constructor; [right; now left | constructor]].
Defined.

(** ** Hazard texts of the card *)

Section HazardList.
Variable NumberToString : Q -> string.

Lemma join_strings separator (names : list string) :
  join NumberToString separator (map JString names) =
  String.concat separator names.
Proof.
  unfold join. f_equal. induction names as [|n names IH]; [reflexivity|].
  cbn [map]. now rewrite IH.
Qed.

Lemma display_strings (names : list string) :
  map (getHazardDisplayText NumberToString) (map JString names) =
  map JString names.
Proof. induction names as [|n names IH]; [reflexivity|]. cbn. now f_equal. Qed.

Lemma truthyProperty_truthy hazard key v :
  truthyProperty hazard key = Some v -> JsValue.truthy v = true.
Proof.
  unfold truthyProperty. destruct (getProperty hazard key) as [w|]; [|discriminate].
  destruct (JsValue.truthy w) eqn:T; [|discriminate]. now intros [= <-].
Qed.

End HazardList.

(** X15.  When the hazards are bare strings, as the record type declares,
    the card lists them separated by a comma and a space; an empty list
    gives "None". *)
Theorem formatHazards_strings (NumberToString : Q -> string) (names : list string) :
  formatHazards NumberToString (Some (map JString names)) =
  match names with
  | [] => "None"
  | _ => String.concat ", " names
  end.
Proof.
  destruct names as [|n names]; [reflexivity|].
  unfold formatHazards. cbn [map].
  change (getHazardDisplayText NumberToString (JString n) ::
          map (getHazardDisplayText NumberToString) (map JString names))
    with (map (getHazardDisplayText NumberToString) (map JString (n :: names))).
  now rewrite display_strings, join_strings.
Qed.

(** X16.  The display value of a hazard entry is falsy (an empty text)
    only when the entry is itself the empty string. *)
Theorem getHazardDisplayText_truthy (NumberToString : Q -> string) (hazard : jsval) :
  JsValue.truthy (getHazardDisplayText NumberToString hazard) = false <->
  hazard = JString EmptyString.
Proof.
  split; [|now intros ->].
  assert (Object : forall h, typeof h = "object" -> JsValue.truthy h = true ->
    JsValue.truthy (getHazardDisplayText NumberToString h) = true).
  { intros h Ht Hh. unfold getHazardDisplayText. rewrite Ht, Hh.
    cbn [String.eqb Ascii.eqb Bool.eqb andb].
    repeat match goal with
           | |- context [truthyProperty ?x ?k] =>
               let E := fresh in
               destruct (truthyProperty x k) eqn:E;
               [exact (truthyProperty_truthy _ _ _ E)|]
           end.
    cbn [JSON_stringify JsValue.truthy].
    destruct h; try discriminate Hh; try discriminate Ht;
      cbn [serializeJSON]; now rewrite append_cons. }
  destruct hazard as [|b|n|s|items|properties]; intros H.
  - discriminate H.
  - destruct b; discriminate H.
  - unfold getHazardDisplayText in H. cbn [typeof JsValue.truthy] in H.
    destruct (JsNumber.truthy n); discriminate H.
  - destruct s; [reflexivity | discriminate H].
  - now rewrite Object in H.
  - now rewrite Object in H.
Qed.

(** ** Asset paths *)

Section AssetPaths.

Lemma startsWith_append (a b : string) : startsWith (a +:+ b) a = true.
Proof.
  induction a as [|x a IH]; [now destruct b|].
  rewrite append_cons. cbn [startsWith]. now rewrite Ascii.eqb_refl.
Qed.

Lemma startsWith_slash (p : string) :
  startsWith p "/" = true -> exists rest, p = "/" +:+ rest.
Proof.
  destruct p as [|c rest]; [discriminate|]. cbn [startsWith].
  destruct (Ascii.eqb "/" c) eqn:E; [|discriminate].
  apply Ascii.eqb_eq in E as <-. now exists rest.
Qed.

End AssetPaths.

(** X17.  An asset path is the base path, a slash and the asset: a leading
    slash of the asset is optional, every result lies under the base path,
    and the development flag makes no difference. *)
Theorem getAssetPath_under_base (dev : bool) (assetPath : string) :
  (startsWith assetPath "/" = false ->
   Paths.getAssetPath dev ("/" +:+ assetPath) = Paths.getAssetPath dev assetPath) /\
  startsWith (Paths.getAssetPath dev assetPath) "/texas-county-choropleth-view/"
    = true /\
  Paths.getAssetPath dev assetPath = Paths.getAssetPath (negb dev) assetPath.
Proof.
  split; [|split].
  - intros H. unfold Paths.getAssetPath.
    now rewrite H, (startsWith_append "/" assetPath).
  - unfold Paths.getAssetPath.
    assert (B : Paths.getBasePath dev = "/texas-county-choropleth-view")
      by now destruct dev.
    rewrite B. destruct (startsWith assetPath "/") eqn:S.
    + apply startsWith_slash in S as [rest ->].
      rewrite <- append_assoc. apply startsWith_append.
    + rewrite <- append_assoc. apply startsWith_append.
  - now destruct dev.
Qed.

Lemma getAssetPath_under_base_witness :
  Paths.getAssetPath false ("/" +:+ "tx_counties.geojson") =
  Paths.getAssetPath false "tx_counties.geojson".
Proof.
  exact (proj1 (getAssetPath_under_base false "tx_counties.geojson") eq_refl).
Defined.

(** ** The message list of the chatbot *)

Section Blank.

Lemma trimStart_blank s : trimStart s = EmptyString <-> allWhiteSpace s = true.
Proof.
  induction s as [|c s IH]; [easy|]. cbn [trimStart allWhiteSpace].
  destruct (isWhiteSpace c); [exact IH | easy].
Qed.

Lemma trimEnd_clean_nonempty s :
  s <> EmptyString -> cleanHead s = true -> trimEnd s <> EmptyString.
Proof.
  destruct s as [|c s]; [easy|]. cbn [cleanHead trimEnd]. intros _ H.
  destruct (trimEnd s); [|easy].
  apply negb_true_iff in H. now rewrite H.
Qed.

Lemma trim_blank s : JsString.truthy (trim s) = negb (allWhiteSpace s).
Proof.
  unfold trim. destruct (allWhiteSpace s) eqn:W.
  - apply trimStart_blank in W. now rewrite W.
  - assert (N : trimStart s <> EmptyString).
    { intros E. apply trimStart_blank in E. congruence. }
    pose proof (trimEnd_clean_nonempty _ N (trimStart_cleanHead s)) as T.
    now destruct (trimEnd (trimStart s)).
Qed.

End Blank.

(** X18.  A submit with nothing but white space in the input changes
    nothing.  Any other submit adds exactly two messages to the end of
    the list, the text as typed (not trimmed) as the user's message and
    then one reply that is not the user's, and leaves the input empty and
    the loading flag down. *)
Theorem handleSubmit_messages
  (now later : Z) (outcome : Chatbot.Outcome) (st : Chatbot.State) :
  let st' := Chatbot.handleSubmit now later outcome st in
  if allWhiteSpace (Chatbot.inputValue st) then st' = st
  else exists reply,
    Chatbot.messages st' =
      Chatbot.messages st ++
      [ {| Chatbot.id := now; Chatbot.text := Chatbot.inputValue st;
           Chatbot.isUser := true |}; reply ] /\
    Chatbot.isUser reply = false /\
    Chatbot.text reply =
      match outcome with
      | Chatbot.Replied response => response
      | Chatbot.Failed => Chatbot.apology
      end /\
    Chatbot.inputValue st' = EmptyString /\
    Chatbot.isLoading st' = false.
Proof.
  cbv zeta. unfold Chatbot.handleSubmit. rewrite trim_blank.
  destruct (allWhiteSpace (Chatbot.inputValue st)); cbn [negb]; [reflexivity|].
  destruct outcome as [response|]; eexists; cbn; rewrite <- app_assoc;
    repeat split.
Qed.
